(** * Field-file parser of [scripts/csv_conversion.py]

    A shallow embedding of the OpenFOAM field-file parser
    ([parse_internal_field_lines], [parse_scalar_field],
    [parse_vector_field]) and the properties of it that the specification
    states.

    Text is a list of characters; a character is a code point below 256.
    Python's [float] is a parameter of the development: nothing is assumed
    about which literals it accepts. *)

From Stdlib Require Import List Bool Arith Lia Ascii String QArith.
Import ListNotations.

Local Close Scope Q_scope.
Local Open Scope string_scope.
Local Open Scope nat_scope.
Local Open Scope bool_scope.
Local Open Scope list_scope.

(** ** Python strings *)

Abbreviation str := (list ascii).

(** String literals are written ["..."] and read as character lists. *)
Coercion list_ascii_of_string : string >-> list.

(** A file given as a list of string literals. *)
Definition lines_of (l : list string) : list str :=
  map list_ascii_of_string l.

Module Py.

(** [str.isspace] on one character, for code points below 256:
    TAB..CR, FS..US, space, NEL and NBSP. *)
Definition is_space (c : ascii) : bool :=
  let n := nat_of_ascii c in
  ((9 <=? n) && (n <=? 13)) || ((28 <=? n) && (n <=? 32))
  || (n =? 133) || (n =? 160).

(** The class [\d] of [re] on code points below 256. *)
Definition is_digit (c : ascii) : bool :=
  let n := nat_of_ascii c in (48 <=? n) && (n <=? 57).

Definition str_eqb (a b : str) : bool :=
  if list_eq_dec ascii_dec a b then true else false.

Definition is_empty (s : str) : bool :=
  match s with [] => true | _ :: _ => false end.

(** [c in chars] for a character. *)
Definition char_in (chars : str) (c : ascii) : bool :=
  existsb (Ascii.eqb c) chars.

(** [s.startswith(p)] *)
Fixpoint startswith (p s : str) : bool :=
  match p, s with
  | [], _ => true
  | _ :: _, [] => false
  | a :: p', b :: s' => Ascii.eqb a b && startswith p' s'
  end.

(** [s.endswith(p)] *)
Definition endswith (p s : str) : bool := startswith (rev p) (rev s).

(** [p in s]: [p] occurs in [s] as a substring. *)
Fixpoint contains (p s : str) : bool :=
  startswith p s ||
  match s with
  | [] => false
  | _ :: s' => contains p s'
  end.

(** The text before and after the first occurrence of [p] in [s]. *)
Fixpoint partition (p s : str) : option (str * str) :=
  if startswith p s then Some ([], skipn (List.length p) s)
  else match s with
       | [] => None
       | c :: s' =>
           match partition p s' with
           | Some (a, b) => Some (c :: a, b)
           | None => None
           end
       end.

(** [s.split(p, 1)] *)
Definition split1 (p s : str) : list str :=
  match partition p s with
  | Some (a, b) => [a; b]
  | None => [s]
  end.

(** [s.replace(old, new)] for one-character [old] and [new]. *)
Definition replace (old new : ascii) (s : str) : str :=
  map (fun c => if Ascii.eqb c old then new else c) s.

Fixpoint lstrip_by (p : ascii -> bool) (s : str) : str :=
  match s with
  | [] => []
  | c :: s' => if p c then lstrip_by p s' else s
  end.

Fixpoint rstrip_by (p : ascii -> bool) (s : str) : str :=
  match s with
  | [] => []
  | c :: s' =>
      match rstrip_by p s' with
      | [] => if p c then [] else [c]
      | r => c :: r
      end
  end.

Definition strip_by (p : ascii -> bool) (s : str) : str :=
  rstrip_by p (lstrip_by p s).

(** [s.strip()] *)
Definition strip : str -> str := strip_by is_space.

(** [s.strip(chars)] and [s.rstrip(chars)] *)
Definition strip_chars (chars : str) : str -> str := strip_by (char_in chars).
Definition rstrip_chars (chars : str) : str -> str := rstrip_by (char_in chars).

(** [s.split()]: the maximal runs of non-whitespace characters. *)
Fixpoint split (s : str) : list str :=
  match s with
  | [] => []
  | c :: s' =>
      if is_space c then split s'
      else match s' with
           | [] => [[c]]
           | d :: _ =>
               if is_space d then [c] :: split s'
               else match split s' with
                    | t :: ts => (c :: t) :: ts
                    | [] => [[c]]
                    end
           end
  end.

(** [s[1:-1]] *)
Definition slice_1_m1 (s : str) : str := removelast (tl s).

(** [re.match(r"^\s*\d+\s*$", s)]: optional whitespace, one or more
    digits, optional whitespace, end of text. *)
Definition match_count (s : str) : bool :=
  match lstrip_by is_space s with
  | [] => false
  | c :: _ as s1 => is_digit c && forallb is_space (lstrip_by is_digit s1)
  end.

End Py.

(** ** Exceptions and results *)

(** The exceptions the parser can raise, named by the error kinds of the
    specification. *)
Inductive exception : Type :=
| MissingEntry
    (* ValueError("No internalField found in file") *)
| MissingCount
    (* ValueError("Could not find number of entries for nonuniform internalField") *)
| MissingOpenDelimiter
    (* ValueError("Could not find opening '(' for value list") *)
| ArityMismatch (got : str)
    (* ValueError("Expected 3 components in [uniform] vector, got: ...") *)
| MalformedNumber (tok : str)
    (* the ValueError of float(tok) *)
| IndexError
    (* list index out of range *)
| FileNotFoundError.
    (* path.open("r") on a path that names no file *)

Inductive result (A : Type) : Type :=
| OK (a : A)
| Raise (e : exception).

Arguments OK {A} a.
Arguments Raise {A} e.

Definition bind {A B : Type} (r : result A) (k : A -> result B) : result B :=
  match r with
  | OK a => k a
  | Raise e => Raise e
  end.

Notation "x <- r ;; k" := (bind r (fun x => k))
  (at level 61, r at next level, right associativity).
Notation "' p <- r ;; k" := (bind r (fun p => k))
  (at level 61, p pattern, r at next level, right associativity).

(** [l[n]] for a non-negative [n]. *)
Definition index {A : Type} (l : list A) (n : nat) : result A :=
  match nth_error l n with
  | Some a => OK a
  | None => Raise IndexError
  end.

(** ** The locator: [parse_internal_field_lines] *)

(** Position of the first element of [l] that satisfies [p]. *)
Fixpoint find_index {A : Type} (p : A -> bool) (l : list A) : option nat :=
  match l with
  | [] => None
  | x :: l' => if p x then Some 0 else option_map S (find_index p l')
  end.

(** [for i in range(start, len(lines)): if p(lines[i]): found = i; break] *)
Definition find_from {A : Type} (p : A -> bool) (start : nat) (lines : list A)
  : option nat :=
  option_map (Nat.add start) (find_index p (skipn start lines)).

Definition is_terminator (stripped : str) : bool :=
  Py.str_eqb stripped ")" || Py.str_eqb stripped ");".

Definition is_skipped (stripped : str) : bool :=
  Py.is_empty stripped || Py.startswith "//" stripped.

(** The last loop of [parse_internal_field_lines], run on the lines from
    [start_idx] on. *)
Fixpoint collect_data_lines (ls : list str) : list str :=
  match ls with
  | [] => []
  | l :: rest =>
      let stripped := Py.strip l in
      if is_terminator stripped then []
      else if is_skipped stripped then collect_data_lines rest
      else stripped :: collect_data_lines rest
  end.

Definition is_uniform_line (line : str) : bool :=
  Py.contains "uniform" line && negb (Py.contains "nonuniform" line).

Definition parse_internal_field_lines (lines : list str)
  : result (list str * bool) :=
  match find_from (Py.contains "internalField") 0 lines with
  | None => Raise MissingEntry
  | Some idx =>
      line <- index lines idx ;;
      if is_uniform_line line then
        after <- index (Py.split1 "uniform" line) 1 ;;
        let after := Py.strip (Py.replace ";" " " after) in
        OK ([after], true)
      else
        match find_from Py.match_count idx lines with
        | None => Raise MissingCount
        | Some n_idx =>
            match find_from (fun l => Py.str_eqb (Py.strip l) "(")
                            (n_idx + 1) lines with
            | None => Raise MissingOpenDelimiter
            | Some i =>
                let start_idx := i + 1 in
                OK (collect_data_lines (skipn start_idx lines), false)
            end
        end
  end.

(** ** The extractor: [parse_scalar_field] and [parse_vector_field] *)

(** The file system seen by [path.open("r")]: the lines of each file. *)
Record World : Type := { files : str -> option (list str) }.

(** A computation that may read the world and may raise. *)
Definition io (A : Type) : Type := World -> result A * World.

Definition io_bind {A B : Type} (m : io A) (k : A -> io B) : io B :=
  fun w =>
    match m w with
    | (OK a, w') => k a w'
    | (Raise e, w') => (Raise e, w')
    end.

Definition lift {A : Type} (r : result A) : io A := fun w => (r, w).

(** [with path.open("r") as f: lines = f.readlines()] *)
Definition readlines (path : str) : io (list str) :=
  fun w =>
    match files w path with
    | Some lines => (OK lines, w)
    | None => (Raise FileNotFoundError, w)
    end.

Section Extractor.

(** Python's [float]: [None] stands for its ValueError. *)
Variable F : Type.
Variable float : str -> option F.

Definition to_float (s : str) : result F :=
  match float s with
  | Some v => OK v
  | None => Raise (MalformedNumber s)
  end.

(** [ux, uy, uz = map(float, parts)] for three parts. *)
Definition float3 (a b c : str) : result (F * F * F) :=
  ux <- to_float a ;;
  uy <- to_float b ;;
  uz <- to_float c ;;
  OK (ux, uy, uz).

(** The loop of [parse_scalar_field] over the data lines. *)
Fixpoint scalar_loop (data_lines : list str) : result (list F) :=
  match data_lines with
  | [] => OK []
  | ln :: rest =>
      let ln := Py.strip (Py.replace ";" " " ln) in
      if Py.is_empty ln then scalar_loop rest
      else
        v <- to_float ln ;;
        values <- scalar_loop rest ;;
        OK (v :: values)
  end.

(** [parse_scalar_field] after the file is read. *)
Definition scalar_field_of_lines (lines : list str) : result (list F) :=
  '(data_lines, is_uniform) <- parse_internal_field_lines lines ;;
  if (is_uniform : bool) then
    d0 <- index data_lines 0 ;;
    let vstr := Py.strip d0 in
    let vstr := Py.strip_chars "()" vstr in
    first <- index (Py.split vstr) 0 ;;
    value <- to_float first ;;
    OK [value]
  else scalar_loop data_lines.

Definition parse_scalar_field (path : str) : io (list F) :=
  io_bind (readlines path) (fun lines => lift (scalar_field_of_lines lines)).

(** The loop of [parse_vector_field] over the data lines. *)
Fixpoint vector_loop (data_lines : list str) : result (list (F * F * F)) :=
  match data_lines with
  | [] => OK []
  | ln :: rest =>
      let ln := Py.rstrip_chars ";" (Py.strip ln) in
      let ln := if Py.startswith "(" ln && Py.endswith ")" ln
                then Py.slice_1_m1 ln else ln in
      match Py.split ln with
      | [a; b; c] =>
          v <- float3 a b c ;;
          vectors <- vector_loop rest ;;
          OK (v :: vectors)
      | _ => Raise (ArityMismatch ln)
      end
  end.

(** [parse_vector_field] after the file is read. *)
Definition vector_field_of_lines (lines : list str)
  : result (list (F * F * F)) :=
  '(data_lines, is_uniform) <- parse_internal_field_lines lines ;;
  if (is_uniform : bool) then
    d0 <- index data_lines 0 ;;
    let vstr := Py.strip d0 in
    let vstr := Py.strip_chars "()" vstr in
    match Py.split vstr with
    | [a; b; c] => v <- float3 a b c ;; OK [v]
    | _ => Raise (ArityMismatch vstr)
    end
  else vector_loop data_lines.

Definition parse_vector_field (path : str) : io (list (F * F * F)) :=
  io_bind (readlines path) (fun lines => lift (vector_field_of_lines lines)).

End Extractor.

Arguments to_float {F} float s.
Arguments float3 {F} float a b c.
Arguments scalar_loop {F} float data_lines.
Arguments vector_loop {F} float data_lines.
Arguments scalar_field_of_lines {F} float lines.
Arguments vector_field_of_lines {F} float lines.
Arguments parse_scalar_field {F} float path.
Arguments parse_vector_field {F} float path.

(** ** A reader of decimal literals

    Used to run the parser on concrete files: [dec_float] accepts what
    [float] accepts among the literals [[+-]digits[.digits]] (surrounding
    whitespace allowed) and returns the exact rational they denote. *)

Definition digit_value (c : ascii) : Z := Z.of_nat (nat_of_ascii c - 48).

(** Reads digits into the numerator [m] and, after the point, scales the
    denominator [d]; [seen] tells whether a digit was read, [frac] whether
    the point was passed. *)
Fixpoint dec_digits (s : str) (m : Z) (d : positive) (seen frac : bool)
  : option Q :=
  match s with
  | [] => if seen then Some (Qmake m d) else None
  | c :: s' =>
      if Py.is_digit c then
        dec_digits s' (10 * m + digit_value c)%Z
                   (if frac then 10 * d else d)%positive true frac
      else if Ascii.eqb c "." && negb frac then dec_digits s' m d seen true
      else None
  end.

Definition dec_float (s : str) : option Q :=
  match Py.strip s with
  | c :: s' =>
      if Ascii.eqb c "-" then option_map Qopp (dec_digits s' 0%Z 1%positive false false)
      else if Ascii.eqb c "+" then dec_digits s' 0%Z 1%positive false false
      else dec_digits (c :: s') 0%Z 1%positive false false
  | [] => None
  end.

(** * Vocabulary of the statements *)

(** Character classes of the statements below: whitespace or [;], and
    the two parentheses. *)
Definition blank (c : ascii) : bool := Py.is_space c || Ascii.eqb c ";".

Definition is_paren (c : ascii) : bool := Py.char_in "()" c.

(** A token: a non-empty run of non-whitespace characters. *)
Definition is_token (t : str) : bool :=
  negb (Py.is_empty t) && forallb (fun c => negb (Py.is_space c)) t.

(** The lines before the marker line do not mention the entry. *)
Definition no_marker (pre : list str) : bool :=
  forallb (fun l => negb (Py.contains "internalField" l)) pre.

Definition is_open (l : str) : bool := Py.str_eqb (Py.strip l) "(".

(** The lines of a data block that the locator keeps. *)
Definition kept_lines (body : list str) : list str :=
  filter (fun s => negb (is_skipped s)) (map Py.strip body).

(** No line of [body] closes the list. *)
Definition no_terminator (body : list str) : bool :=
  forallb (fun l => negb (is_terminator (Py.strip l))) body.

(** A token free of whitespace, parentheses and [;]. *)
Definition plain_token (t : str) : bool :=
  negb (Py.is_empty t)
  && forallb (fun c => negb (Py.is_space c || Py.char_in "();" c)) t.

(** What may follow the first value on a uniform line: closing
    parentheses and then only whitespace and [;]; or the terminating [;],
    if any, whitespace, and then anything. *)
Inductive after_value : str -> Prop :=
| closes_and_ends (rp tail : str) :
    forallb is_paren rp = true -> forallb blank tail = true ->
    after_value (rp ++ tail)
| more_follows (semis : str) (sep : ascii) (more : str) :
    forallb (fun c => Ascii.eqb c ";") semis = true ->
    Py.is_space sep = true ->
    after_value (semis ++ sep :: more).

(** Runs [f] over [l] in order and stops at the first exception. *)
Fixpoint map_result {A B : Type} (f : A -> result B) (l : list A)
  : result (list B) :=
  match l with
  | [] => OK []
  | x :: l' => y <- f x ;; ys <- map_result f l' ;; OK (y :: ys)
  end.

(** The text of a scalar data line as the source reads it: every [;]
    becomes a space, then surrounding whitespace goes. *)
Definition scalar_text (ln : str) : str := Py.strip (Py.replace ";" " " ln).

(** The text of a scalar data line as the specification words it: the
    trailing [;] and whitespace are stripped. *)
Definition spec_scalar_text (ln : str) : str := Py.rstrip_by blank ln.

(** The scalar loop with the specification's reading of a line. *)
Definition spec_scalar_loop {F : Type} (float : str -> option F)
           (data_lines : list str) : result (list F) :=
  map_result (to_float float)
             (filter (fun t => negb (Py.is_empty t))
                     (map spec_scalar_text data_lines)).

(** A body line that holds one well-formed scalar value. *)
Definition well_formed_scalar {F : Type} (float : str -> option F)
           (l : str) : bool :=
  let s := Py.strip l in
  negb (is_skipped s) && negb (Py.is_empty (scalar_text s))
  && match float (scalar_text s) with Some _ => true | None => false end.

(** The value of a uniform scalar entry as the specification words it:
    the first whitespace token after the marker, its trailing [;] and
    its enclosing parentheses stripped, read as a float. *)
Definition spec_uniform_scalar {F : Type} (float : str -> option F)
           (after : str) : result (list F) :=
  first <- index (Py.split after) 0 ;;
  value <- to_float float (Py.strip_chars "()" (Py.rstrip_chars ";" first)) ;;
  OK [value].

(** The same with the stripping done on the whole text after the marker,
    before it is split: surrounding whitespace and the trailing [;] go,
    then the enclosing parentheses. *)
Definition spec_uniform_scalar_text {F : Type} (float : str -> option F)
           (after : str) : result (list F) :=
  let text :=
    Py.strip_chars "()" (Py.strip (Py.rstrip_chars ";" (Py.strip after))) in
  first <- index (Py.split text) 0 ;;
  value <- to_float float first ;;
  OK [value].

(** A text that starts with [(] and ends with another character [)]. *)
Definition is_parenthesized (s : str) : bool :=
  match s with
  | c :: (_ :: _) as r => Ascii.eqb c "(" && Ascii.eqb (last r " "%char) ")"
  | _ => false
  end.

(** [vector_line_text d t]: [t] is what the specification reads the
    three components of the data line [d] from.  The trailing [;] of [d]
    are dropped; when what is left starts with [(] and ends with [)],
    exactly these two characters are dropped as well. *)
Inductive vector_line_text : str -> str -> Prop :=
| parenthesized_text (inner semis : str) :
    forallb (fun c => Ascii.eqb c ";") semis = true ->
    vector_line_text ("(" ++ inner ++ ")" ++ semis) inner
| bare_text (body semis : str) :
    forallb (fun c => Ascii.eqb c ";") semis = true ->
    Ascii.eqb (last body " "%char) ";" = false ->
    is_parenthesized body = false ->
    vector_line_text (body ++ semis) body.

(** Exactly three whitespace-separated tokens, each one a float. *)
Definition triple_of_text {F : Type} (float : str -> option F) (text : str)
  : result (F * F * F) :=
  match Py.split text with
  | [a; b; c] => float3 float a b c
  | _ => Raise (ArityMismatch text)
  end.

(** The declared entry count as the specification words it: the integer
    on the first all-digit line from the marker line on.  The source
    finds that line and never reads the number. *)
Definition count_value (s : str) : nat :=
  fold_left (fun n c => 10 * n + (nat_of_ascii c - 48)) s 0.

Definition spec_declared_count (lines : list str) : option nat :=
  match find_from (Py.contains "internalField") 0 lines with
  | None => None
  | Some idx =>
      match find_from Py.match_count idx lines with
      | None => None
      | Some n_idx => Some (count_value (Py.strip (nth n_idx lines [])))
      end
  end.

(** ** Example files *)

(** A field file cut off inside its data block: the marker line, the
    count, the opening delimiter, two values, and then the end of the
    input. *)
Definition truncated_file : list str :=
  lines_of ["internalField   nonuniform List<scalar> "; "3"; "(";
            "0.1"; "0.2"].

(** A data block whose only line starts with [;]. *)
Definition leading_semicolon_file : list str :=
  lines_of ["internalField   nonuniform List<scalar> "; "1"; "(";
            ";5"; ")"; ";"].

(** Two files that differ in the declared count only: three values under
    the count 3, and the same three values under the count 5. *)
Definition file_count_3 : list str :=
  lines_of ["internalField   nonuniform List<scalar> "; "3"; "(";
            "0.1"; "0.2"; "0.3"; ")"; ";"].

Definition file_count_5 : list str :=
  lines_of ["internalField   nonuniform List<scalar> "; "5"; "(";
            "0.1"; "0.2"; "0.3"; ")"; ";"].

(** A file with blank lines and comments before and inside the data
    block. *)
Definition commented_file : list str :=
  lines_of ["FoamFile"; "{"; "}"; "";
            "internalField   nonuniform List<scalar> "; ""; "3";
            "// values"; "(";
            "0.1"; ""; "// first"; "  0.2;"; "0.3";
            ")"; ";"; "boundaryField"].

(** A vector field with one parenthesized and one bare data line. *)
Definition vector_file : list str :=
  lines_of ["internalField   nonuniform List<vector> "; "2"; "(";
            "(1 0 0)"; "0 1 0"; ")"; ";"].

(** A vector field whose data lines end with [;], twice on one of them,
    and hold blanks inside the parentheses. *)
Definition vector_file_semicolons : list str :=
  lines_of ["internalField   nonuniform List<vector> "; "3"; "(";
            "(1 0 0);"; "0 1 0;;"; "( 0 0 1 );"; ")"; ";"].

(** A vector field whose data line opens a parenthesis and does not
    close it. *)
Definition vector_file_unbalanced : list str :=
  lines_of ["internalField   nonuniform List<vector> "; "1"; "(";
            "(1 0 0;"; ")"; ";"].

(** * The rest of the module *)

From Stdlib Require Import DecimalString.

(** ** Text files *)

Definition LF : ascii := "010"%char.
Definition CR : ascii := "013"%char.

(** A text without a line break. *)
Definition no_line_break (s : str) : bool :=
  forallb (fun c => negb (Ascii.eqb c LF || Ascii.eqb c CR)) s.

(** The lines [readlines] returns for a file that holds [text]: in text
    mode CR LF and a lone CR are read as LF, and the text is cut after
    each LF. *)
Fixpoint text_lines (text : str) : list str :=
  match text with
  | [] => []
  | c :: rest =>
      if Ascii.eqb c LF then [LF] :: text_lines rest
      else if Ascii.eqb c CR then
        match rest with
        | d :: rest' =>
            if Ascii.eqb d LF then [LF] :: text_lines rest'
            else [LF] :: text_lines rest
        | [] => [[LF]]
        end
      else match text_lines rest with
           | l :: ls => (c :: l) :: ls
           | [] => [[c]]
           end
  end.

(** [with path.open("w") as f: f.write(...)], the writes adding up to
    [text]: the file is replaced, every other file stays.  The world
    holds regular files only, so creating the parent directories
    ([mkdir(parents=True, exist_ok=True)]) does not show in it. *)
Definition write_text (path : str) (text : str) : io unit :=
  fun w =>
    (OK tt,
     {| files := fun p => if Py.str_eqb p path then Some (text_lines text)
                          else files w p |}).

(** [f"{i}"] for the index of [enumerate]. *)
Definition str_of_nat (i : nat) : str :=
  list_ascii_of_string (NilEmpty.string_of_uint (Nat.to_uint i)).

(** ** [write_scalar_csv] and [write_vector_csv] *)

Section Writers.

Variable F : Type.

(** [f"{v}"] for a float: Python's formatting, like [float], is a
    parameter. *)
Variable format_float : F -> str.

(** The texts written by the loop over [enumerate(values)], the index
    being at [i]. *)
Fixpoint scalar_rows (i : nat) (values : list F) : list str :=
  match values with
  | [] => []
  | v :: rest =>
      (str_of_nat i ++ "," ++ format_float v ++ [LF])
        :: scalar_rows (S i) rest
  end.

Definition write_scalar_csv (values : list F) (out_path : str) : io unit :=
  write_text out_path
             (("cellId,value" ++ [LF]) ++ List.concat (scalar_rows 0 values)).

Fixpoint vector_rows (i : nat) (vectors : list (F * F * F)) : list str :=
  match vectors with
  | [] => []
  | (ux, uy, uz) :: rest =>
      (str_of_nat i ++ "," ++ format_float ux ++ "," ++ format_float uy
         ++ "," ++ format_float uz ++ [LF])
        :: vector_rows (S i) rest
  end.

Definition write_vector_csv (vectors : list (F * F * F)) (out_path : str)
  : io unit :=
  write_text out_path
             (("cellId,ux,uy,uz" ++ [LF]) ++ List.concat (vector_rows 0 vectors)).

End Writers.

(** No component of the triple is printed with a line break. *)
Definition vector_no_line_break {F : Type} (format_float : F -> str)
           (v : F * F * F) : Prop :=
  let '(ux, uy, uz) := v in
  no_line_break (format_float ux) = true
  /\ no_line_break (format_float uy) = true
  /\ no_line_break (format_float uz) = true.

Arguments scalar_rows {F} format_float i values.
Arguments vector_rows {F} format_float i vectors.
Arguments write_scalar_csv {F} format_float values out_path.
Arguments write_vector_csv {F} format_float vectors out_path.

(** ** [is_time_dir] *)

(** What the module reads of a [Path]: the path itself, its last
    component [p.name], and whether it is a directory. *)
Record DirEntry : Type :=
  { entry_path : str; entry_name : str; entry_is_dir : bool }.

Definition is_time_dir {F : Type} (float : str -> option F) (p : DirEntry)
  : bool :=
  if negb (entry_is_dir p) then false
  else
    let name := entry_name p in
    if existsb (Py.str_eqb name) (lines_of ["system"; "constant"; "0.orig"])
    then false
    else match float name with
         | Some _ => true
         | None => false
         end.

(** The keys [float(p.name)] that [sorted] computes in [process_case] for
    the entries [is_time_dir] lets through. *)
Definition time_dir_keys {F : Type} (float : str -> option F)
           (entries : list DirEntry) : result (list F) :=
  map_result (fun p => to_float float (entry_name p))
             (filter (is_time_dir float) entries).

(** ** The conversion loop of [process_case] *)

(** The messages of [logging.info], by kind. *)
Inductive log_event : Type :=
| LogTime (name : str)
    (* "=== Time {tdir.name} ===" *)
| LogSkip (field tdir : str)
    (* "[skip] {field} not found in {tdir}" *)
| LogVector (field_path out_path : str)
    (* "[vector] Converting {field_path} -> {out_path}" *)
| LogScalar (field_path out_path : str)
    (* "[scalar] Converting {field_path} -> {out_path}" *)
| LogError (field_path : str) (e : exception).
    (* "[error] Failed to convert {field_path}: {e}" *)

Section Conversion.

Variable F : Type.
Variable float : str -> option F.
Variable format_float : F -> str.

(** [parent / child] of [pathlib]. *)
Variable joinpath : str -> str -> str.

(** The body of the loop over [fields], for the time directory [tdir]
    and its output directory; the state is the file system and the log
    so far.  [try ... except Exception] catches every exception of the
    parse.  The messages are kept as a list: the copy that the handler
    installed by [setup_logging] appends to [out_root / "log.txt"] is
    not part of the world, and the statements about the files leave that
    path out.  The world holds regular files only, and a path that names
    none is one for which [exists()] is false. *)
Definition convert_field (tdir out_time_dir : str)
           (st : World * list log_event) (field : str)
  : World * list log_event :=
  let (w, log) := st in
  let field_path := joinpath tdir field in
  match files w field_path with
  | None => (w, log ++ [LogSkip field tdir])
  | Some _ =>
      let out_path := joinpath out_time_dir (field ++ ".csv") in
      if Py.str_eqb field "U" then
        let log := log ++ [LogVector field_path out_path] in
        match parse_vector_field float field_path w with
        | (OK vectors, w) =>
            (snd (write_vector_csv format_float vectors out_path w), log)
        | (Raise e, w) => (w, log ++ [LogError field_path e])
        end
      else
        let log := log ++ [LogScalar field_path out_path] in
        match parse_scalar_field float field_path w with
        | (OK values, w) =>
            (snd (write_scalar_csv format_float values out_path w), log)
        | (Raise e, w) => (w, log ++ [LogError field_path e])
        end
  end.

(** The body of the loop over [time_dirs]. *)
Definition convert_time_dir (out_root : str) (fields : list str)
           (st : World * list log_event) (tdir : DirEntry)
  : World * list log_event :=
  let st := (fst st, snd st ++ [LogTime (entry_name tdir)]) in
  let out_time_dir := joinpath out_root (entry_name tdir) in
  fold_left (convert_field (entry_path tdir) out_time_dir) fields st.

(** The loop over [time_dirs] of [process_case]. *)
Definition convert_time_dirs (out_root : str) (fields : list str)
           (time_dirs : list DirEntry) (st : World * list log_event)
  : World * list log_event :=
  fold_left (convert_time_dir out_root fields) time_dirs st.

End Conversion.

Arguments convert_field {F} float format_float joinpath
          tdir out_time_dir st field.
Arguments convert_time_dir {F} float format_float joinpath
          out_root fields st tdir.
Arguments convert_time_dirs {F} float format_float joinpath
          out_root fields time_dirs st.

(** The exception, if any, of the extraction [convert_field] runs on the
    lines of a field file: the vector one for the field [U], the scalar
    one for every other field. *)
Definition extraction_error {F : Type} (float : str -> option F)
           (field : str) (lines : list str) : option exception :=
  if Py.str_eqb field "U" then
    match vector_field_of_lines float lines with
    | Raise e => Some e
    | OK _ => None
    end
  else
    match scalar_field_of_lines float lines with
    | Raise e => Some e
    | OK _ => None
    end.

(** The field has no file in the time directory, or its file does not
    parse. *)
Definition cannot_convert {F : Type} (float : str -> option F)
           (joinpath : str -> str -> str) (w : World) (tdir field : str)
  : Prop :=
  match files w (joinpath tdir field) with
  | None => True
  | Some lines => extraction_error float field lines <> None
  end.

(** Three tokens with whitespace around and between them. *)
Definition padded_triple (w0 x w1 y w2 z w3 : str) : str :=
  w0 ++ x ++ w1 ++ y ++ w2 ++ z ++ w3.

(** The parts of a [padded_triple]: plain tokens, separated by at least
    one whitespace character. *)
Definition padded_triple_ok (w0 x w1 y w2 z w3 : str) : bool :=
  forallb Py.is_space w0 && plain_token x
  && negb (Py.is_empty w1) && forallb Py.is_space w1 && plain_token y
  && negb (Py.is_empty w2) && forallb Py.is_space w2 && plain_token z
  && forallb Py.is_space w3.

(** ** Stand-ins for the examples

    Floats kept as their trimmed decimal literal, printed back as it
    is, and paths joined with [/]. *)
Definition literal_float (s : str) : option str :=
  match dec_float s with
  | Some _ => Some (Py.strip s)
  | None => None
  end.

Definition slash_join (parent child : str) : str := parent ++ "/" ++ child.

(** * Facts about the string operations *)

Module PyFacts.
Import Py.

Lemma forallb_weaken {A : Type} (p q : A -> bool) (l : list A) :
  (forall a, p a = true -> q a = true) ->
  forallb p l = true -> forallb q l = true.
Proof.
  intros Hpq. induction l as [|a l IH]; [reflexivity|]. cbn. intros H.
  apply andb_true_iff in H as [Ha H]. now rewrite (Hpq a Ha), (IH H).
Qed.

Lemma str_eqb_eq (a b : str) : str_eqb a b = true <-> a = b.
Proof.
  unfold str_eqb. destruct (list_eq_dec ascii_dec a b); split; congruence.
Qed.

Lemma str_eqb_refl (a : str) : str_eqb a a = true.
Proof. now apply str_eqb_eq. Qed.

Lemma startswith_spec (p s : str) :
  startswith p s = true <-> exists r, s = p ++ r.
Proof.
  revert s. induction p as [|a p IH]; intros s; simpl.
  - split; [exists s; reflexivity | reflexivity].
  - destruct s as [|b s].
    + split; [discriminate | intros [r Hr]; discriminate].
    + rewrite andb_true_iff, Ascii.eqb_eq, IH. split.
      * intros [-> [r ->]]. now exists r.
      * intros [r Hr]. injection Hr as -> ->. split; [reflexivity | now exists r].
Qed.

Lemma startswith_app (p r : str) : startswith p (p ++ r) = true.
Proof. apply startswith_spec. now exists r. Qed.

Lemma contains_spec (p s : str) :
  contains p s = true <-> exists a b, s = a ++ p ++ b.
Proof.
  induction s as [|c s IH].
  - cbn [contains]. rewrite orb_false_r, startswith_spec. split.
    + intros [r Hr]. exists [], r. exact Hr.
    + intros [a [b H]]. destruct a; [now exists b | discriminate].
  - cbn [contains]. rewrite orb_true_iff, startswith_spec, IH. split.
    + intros [[r Hr] | [a [b H]]].
      * exists [], r. exact Hr.
      * exists (c :: a), b. now rewrite H.
    + intros [[|c' a] [b H]].
      * left. now exists b.
      * right. injection H as -> ->. now exists a, b.
Qed.

(** A text that contains [q ++ p] contains [p]. *)
Lemma contains_tail_of_pattern (q p s : str) :
  contains (q ++ p) s = true -> contains p s = true.
Proof.
  rewrite !contains_spec. intros [a [b ->]].
  exists (a ++ q), b. now rewrite <- !app_assoc.
Qed.

Lemma contains_false_elim (p a b : str) :
  contains p (a ++ p ++ b) = false -> False.
Proof.
  intros H. assert (contains p (a ++ p ++ b) = true) as E
    by (apply contains_spec; now exists a, b).
  congruence.
Qed.

Lemma partition_sound (p s a b : str) :
  partition p s = Some (a, b) -> s = a ++ p ++ b.
Proof.
  revert a b. induction s as [|c s IH]; intros a b; cbn [partition].
  - destruct (startswith p []) eqn:E; [|discriminate].
    intros [= <- <-]. apply startswith_spec in E as [r Hr].
    destruct p; [reflexivity | discriminate].
  - destruct (startswith p (c :: s)) eqn:E.
    + intros [= <- <-]. apply startswith_spec in E as [r Hr].
      rewrite Hr at 1. rewrite Hr, skipn_app, skipn_all, Nat.sub_diag. reflexivity.
    + destruct (partition p s) as [[a' b']|]; [|discriminate].
      intros [= <- <-]. now rewrite (IH a' b' eq_refl).
Qed.

Lemma partition_complete (p s : str) :
  contains p s = true -> exists a b, partition p s = Some (a, b).
Proof.
  induction s as [|c s IH]; cbn [contains partition].
  - rewrite orb_false_r. intros ->. eauto.
  - destruct (startswith p (c :: s)); [eauto|]. cbn [orb].
    intros H. destruct (IH H) as [a [b ->]]. eauto.
Qed.

Lemma partition_unfold (p s : str) :
  partition p s =
    if startswith p s then Some ([], skipn (List.length p) s)
    else match s with
         | [] => None
         | c :: s' =>
             match partition p s' with
             | Some (a, b) => Some (c :: a, b)
             | None => None
             end
         end.
Proof. destruct s; reflexivity. Qed.

(** [partition] splits at the first occurrence: if no occurrence of [p]
    starts inside [a], the parts of [a ++ p ++ b] are [a] and [b]. *)
Lemma partition_first (p a b : str) :
  (forall a1 a2, a = a1 ++ a2 -> a2 <> [] ->
                 startswith p (a2 ++ p ++ b) = false) ->
  partition p (a ++ p ++ b) = Some (a, b).
Proof.
  induction a as [|c a IH]; intros H.
  - cbn [app]. rewrite partition_unfold, startswith_app.
    now rewrite skipn_app, skipn_all, Nat.sub_diag.
  - cbn [app partition].
    assert (startswith p (c :: a ++ p ++ b) = false) as E
      by (apply (H [] (c :: a) eq_refl); discriminate).
    rewrite E, IH; [reflexivity|].
    intros a1 a2 -> Hne. apply (H (c :: a1) a2 eq_refl Hne).
Qed.

(** The marker ["uniform"] cannot overlap a later occurrence of
    itself: an occurrence that starts inside [a2] lies within [a2]. *)
Lemma uniform_no_overlap (a2 b : str) :
  a2 <> [] ->
  startswith "uniform" (a2 ++ "uniform" ++ b) = true ->
  startswith "uniform" a2 = true.
Proof.
  intros Hne H.
  destruct a2 as [|c1 [|c2 [|c3 [|c4 [|c5 [|c6 [|c7 a2]]]]]]];
    [congruence | cbn in H |- *; rewrite ?andb_false_r in H;
                  try discriminate; try exact H ..].
Qed.

Lemma partition_uniform (a b : str) :
  contains "uniform" a = false ->
  partition "uniform" (a ++ "uniform" ++ b) = Some (a, b).
Proof.
  intros Ha. apply partition_first. intros a1 a2 -> Hne.
  destruct (startswith "uniform" (a2 ++ "uniform" ++ b)) eqn:E; [|reflexivity].
  apply uniform_no_overlap in E; [|exact Hne].
  apply startswith_spec in E as [r ->].
  exfalso. exact (contains_false_elim _ _ _ Ha).
Qed.

(** *** Stripping *)

Section Strip.
Variable p : ascii -> bool.

Lemma lstrip_by_app (w s : str) :
  forallb p w = true -> lstrip_by p (w ++ s) = lstrip_by p s.
Proof.
  induction w as [|c w IH]; [reflexivity|]. cbn. intros H.
  apply andb_true_iff in H as [-> H]. now apply IH.
Qed.

Lemma lstrip_by_all (w : str) : forallb p w = true -> lstrip_by p w = [].
Proof.
  intros H. rewrite <- (app_nil_r w). now rewrite lstrip_by_app.
Qed.

Lemma lstrip_by_decomp (s : str) :
  exists w, s = w ++ lstrip_by p s /\ forallb p w = true.
Proof.
  induction s as [|c s [w [E Hw]]].
  - now exists [].
  - cbn [lstrip_by]. destruct (p c) eqn:Ec.
    + exists (c :: w). cbn. rewrite Ec, Hw. now rewrite E at 1.
    + now exists [].
Qed.

Lemma rstrip_by_all (w : str) : forallb p w = true -> rstrip_by p w = [].
Proof.
  induction w as [|c w IH]; [reflexivity|]. cbn. intros H.
  apply andb_true_iff in H as [-> H]. now rewrite IH.
Qed.

Lemma rstrip_by_app (x y : str) :
  rstrip_by p (x ++ y) =
    match rstrip_by p y with
    | [] => rstrip_by p x
    | _ :: _ => x ++ rstrip_by p y
    end.
Proof.
  induction x as [|c x IH].
  - cbn. now destruct (rstrip_by p y).
  - cbn [app rstrip_by]. rewrite IH.
    destruct (rstrip_by p y); [reflexivity | now destruct x].
Qed.

Lemma rstrip_by_snoc (x : str) (c : ascii) :
  p c = false -> rstrip_by p (x ++ [c]) = x ++ [c].
Proof. intros H. rewrite rstrip_by_app. cbn. now rewrite H. Qed.

Lemma rstrip_by_decomp (s : str) :
  exists w, s = rstrip_by p s ++ w /\ forallb p w = true.
Proof.
  induction s as [|c s [w [E Hw]]].
  - now exists [].
  - cbn [rstrip_by]. destruct (rstrip_by p s) as [|d r] eqn:Er.
    + destruct (p c) eqn:Ec.
      * exists (c :: w). cbn in *. now rewrite Ec, Hw, E.
      * exists w. cbn in *. now rewrite E.
    + exists w. split; [|exact Hw]. cbn. now rewrite E at 1.
Qed.

(** A stripped text does not end with a stripped character. *)
Lemma rstrip_by_last (s x : str) (c : ascii) :
  rstrip_by p s = x ++ [c] -> p c = false.
Proof.
  revert x. induction s as [|d s IH]; intros x; cbn [rstrip_by].
  - now destruct x.
  - destruct (rstrip_by p s) as [|e r] eqn:Er.
    + destruct (p d) eqn:Ed; [now destruct x|].
      destruct x as [|? [|? ?]]; try discriminate. now intros [= <-].
    + destruct x as [|? x]; [discriminate|].
      intros [= <- E]. now apply (IH x).
Qed.

(** Padding on either side does not change what [strip] returns. *)
Lemma strip_by_pad (w1 s w2 : str) :
  forallb p w1 = true -> forallb p w2 = true ->
  strip_by p (w1 ++ s ++ w2) = strip_by p s.
Proof.
  intros H1 H2. unfold strip_by. rewrite lstrip_by_app by exact H1.
  destruct (lstrip_by_decomp s) as [w [E Hw]].
  destruct (lstrip_by p s) as [|c r] eqn:Es.
  - rewrite app_nil_r in E. subst w.
    now rewrite lstrip_by_app, lstrip_by_all.
  - assert (p c = false) as Hc.
    { destruct (p c) eqn:Ec; [|reflexivity].
      clear - Es Ec. induction s as [|d s IH]; [discriminate|].
      cbn in Es. destruct (p d) eqn:Ed; [now apply IH|].
      injection Es as -> _. congruence. }
    rewrite E, <- app_assoc, lstrip_by_app by exact Hw.
    change ((c :: r) ++ w2) with (c :: r ++ w2). cbn [lstrip_by].
    rewrite Hc. change (c :: r ++ w2) with ((c :: r) ++ w2).
    rewrite rstrip_by_app, rstrip_by_all by exact H2. reflexivity.
Qed.

(** A text that neither starts nor ends with a stripped character is
    left as it is. *)
Lemma strip_by_core (c d : ascii) (m : str) :
  p c = false -> p d = false ->
  strip_by p (c :: m ++ [d]) = c :: m ++ [d].
Proof.
  intros Hc Hd. unfold strip_by. cbn [lstrip_by]. rewrite Hc.
  change (c :: m ++ [d]) with ((c :: m) ++ [d]).
  now apply rstrip_by_snoc.
Qed.

Lemma strip_by_single (c : ascii) : p c = false -> strip_by p [c] = [c].
Proof.
  intros Hc. unfold strip_by. cbn [lstrip_by]. rewrite Hc. cbn.
  now rewrite Hc.
Qed.

Lemma lstrip_by_none (s : str) :
  forallb (fun c => negb (p c)) s = true -> lstrip_by p s = s.
Proof.
  destruct s as [|c s]; [reflexivity|]. cbn. intros H.
  apply andb_true_iff in H as [H _]. now destruct (p c).
Qed.

Lemma rstrip_by_none (s : str) :
  forallb (fun c => negb (p c)) s = true -> rstrip_by p s = s.
Proof.
  induction s as [|c s IH]; [reflexivity|]. cbn. intros H.
  apply andb_true_iff in H as [Hc H]. rewrite (IH H).
  destruct s; [now destruct (p c) | reflexivity].
Qed.

Lemma strip_by_none (s : str) :
  forallb (fun c => negb (p c)) s = true -> strip_by p s = s.
Proof.
  intros H. unfold strip_by. rewrite lstrip_by_none by exact H.
  now apply rstrip_by_none.
Qed.

Lemma rstrip_by_idem (s : str) :
  rstrip_by p (rstrip_by p s) = rstrip_by p s.
Proof.
  destruct (rstrip_by p s) as [|c r] eqn:E using rev_ind; [reflexivity|].
  apply rstrip_by_snoc. exact (rstrip_by_last _ _ _ E).
Qed.

(** Right-stripping keeps a first character that is not stripped. *)
Lemma rstrip_by_head (c : ascii) (s : str) :
  p c = false -> exists r, rstrip_by p (c :: s) = c :: r.
Proof.
  intros Hc. cbn [rstrip_by]. destruct (rstrip_by p s); [|eauto].
  rewrite Hc. eauto.
Qed.

Lemma lstrip_by_head (s r : str) (c : ascii) :
  lstrip_by p s = c :: r -> p c = false.
Proof.
  induction s as [|d s IH]; [discriminate|]. cbn.
  destruct (p d) eqn:Ed; [exact IH|]. now intros [= <- _].
Qed.

Lemma strip_by_idem (s : str) : strip_by p (strip_by p s) = strip_by p s.
Proof.
  unfold strip_by at 2 3. destruct (lstrip_by p s) as [|c r] eqn:E.
  - reflexivity.
  - pose proof (lstrip_by_head _ _ _ E) as Hc.
    destruct (rstrip_by_head c r Hc) as [r' Er]. rewrite Er.
    unfold strip_by. cbn [lstrip_by]. rewrite Hc, <- Er.
    apply rstrip_by_idem.
Qed.

Lemma rstrip_by_strip (s : str) :
  rstrip_by p (strip_by p s) = strip_by p s.
Proof. apply rstrip_by_idem. Qed.

End Strip.

Lemma strip_idem (s : str) : strip (strip s) = strip s.
Proof. apply strip_by_idem. Qed.

(** *** Replacing [;] by a space *)

Lemma replace_app (x y : str) :
  replace ";" " " (x ++ y) = replace ";" " " x ++ replace ";" " " y.
Proof. apply map_app. Qed.

Lemma replace_none (s : str) :
  forallb (fun c => negb (Ascii.eqb c ";")) s = true ->
  replace ";" " " s = s.
Proof.
  unfold replace. induction s as [|c s IH]; [reflexivity|].
  cbn [forallb map]. intros H.
  apply andb_true_iff in H as [Hc H]. rewrite (IH H).
  now destruct (Ascii.eqb c ";").
Qed.

Lemma replace_blank (s : str) :
  forallb blank s = true -> forallb is_space (replace ";" " " s) = true.
Proof.
  unfold replace. induction s as [|c s IH]; [reflexivity|].
  cbn [forallb map]. intros H.
  apply andb_true_iff in H as [Hc H]. rewrite (IH H), andb_true_r.
  unfold blank in Hc. destruct (Ascii.eqb c ";"); [reflexivity|].
  now rewrite orb_false_r in Hc.
Qed.

(** *** Splitting on whitespace *)

Lemma split_unfold (c : ascii) (s : str) :
  split (c :: s) =
    if is_space c then split s
    else match s with
         | [] => [[c]]
         | d :: _ =>
             if is_space d then [c] :: split s
             else match split s with
                  | t :: ts => (c :: t) :: ts
                  | [] => [[c]]
                  end
         end.
Proof. reflexivity. Qed.

Lemma split_blanks (w s : str) :
  forallb is_space w = true -> split (w ++ s) = split s.
Proof.
  induction w as [|c w IH]; [reflexivity|]. intros H.
  cbn [forallb] in H. apply andb_true_iff in H as [Hc H].
  cbn [app]. rewrite split_unfold, Hc. now apply IH.
Qed.

Lemma split_all_blanks (w : str) : forallb is_space w = true -> split w = [].
Proof.
  intros H. rewrite <- (app_nil_r w). now rewrite split_blanks.
Qed.

Lemma split_token_then (t : str) (c : ascii) (s : str) :
  is_token t = true -> is_space c = true ->
  split (t ++ c :: s) = t :: split s.
Proof.
  unfold is_token. intros H Hc.
  induction t as [|a t IH]; [discriminate|].
  cbn in H. apply andb_true_iff in H as [Ha Ht].
  apply negb_true_iff in Ha.
  cbn [app]. rewrite split_unfold, Ha.
  destruct t as [|b t].
  - cbn [app]. now rewrite Hc, split_unfold, Hc.
  - cbn [app] in *. pose proof Ht as Ht'. cbn in Ht'.
    apply andb_true_iff in Ht' as [Hb _]. apply negb_true_iff in Hb.
    rewrite Hb, IH; [reflexivity | exact Ht].
Qed.

Lemma split_token (t : str) : is_token t = true -> split t = [t].
Proof.
  unfold is_token. intros H.
  induction t as [|a t IH]; [discriminate|].
  cbn in H. apply andb_true_iff in H as [Ha Ht].
  apply negb_true_iff in Ha. rewrite split_unfold, Ha.
  destruct t as [|b t]; [reflexivity|].
  pose proof Ht as Ht'. cbn in Ht'.
  apply andb_true_iff in Ht' as [Hb _]. apply negb_true_iff in Hb.
  rewrite Hb, IH; [reflexivity | exact Ht].
Qed.

End PyFacts.

(** * Facts about the locator *)

Section LocatorFacts.
Import Py PyFacts.

Lemma find_index_first {A : Type} (p : A -> bool) (a : list A) (x : A)
      (b : list A) :
  forallb (fun y => negb (p y)) a = true -> p x = true ->
  find_index p (a ++ x :: b) = Some (List.length a).
Proof.
  intros Ha Hx. induction a as [|y a IH]; cbn.
  - now rewrite Hx.
  - cbn in Ha. apply andb_true_iff in Ha as [Hy Ha].
    apply negb_true_iff in Hy. now rewrite Hy, (IH Ha).
Qed.

Lemma find_index_none {A : Type} (p : A -> bool) (a : list A) :
  forallb (fun y => negb (p y)) a = true -> find_index p a = None.
Proof.
  induction a as [|y a IH]; [reflexivity|]. cbn. intros Ha.
  apply andb_true_iff in Ha as [Hy Ha].
  apply negb_true_iff in Hy. now rewrite Hy, (IH Ha).
Qed.

Lemma skipn_past {A : Type} (a : list A) (x : A) (b : list A) :
  skipn (List.length a + 1) (a ++ x :: b) = b.
Proof.
  induction a as [|y a IH]; [reflexivity|]. exact IH.
Qed.

Lemma skipn_exact {A : Type} (a b : list A) :
  skipn (List.length a) (a ++ b) = b.
Proof. induction a as [|y a IH]; [reflexivity | exact IH]. Qed.

Lemma skipn_more {A : Type} (a b : list A) (k : nat) :
  skipn (List.length a + k) (a ++ b) = skipn k b.
Proof. induction a as [|y a IH]; [reflexivity | exact IH]. Qed.

Lemma index_middle {A : Type} (a : list A) (x : A) (b : list A) :
  index (a ++ x :: b) (List.length a) = OK x.
Proof.
  unfold index. now rewrite nth_error_app2, Nat.sub_diag by lia.
Qed.

(** A line that matches the count pattern holds whitespace and digits
    only. *)
Lemma match_count_chars (s : str) :
  match_count s = true ->
  forallb (fun c => is_space c || is_digit c) s = true.
Proof.
  unfold match_count. intros H.
  destruct (lstrip_by_decomp is_space s) as [w [E Hw]].
  destruct (lstrip_by is_space s) as [|c r]; [discriminate|].
  apply andb_true_iff in H as [Hc H].
  destruct (lstrip_by_decomp is_digit (c :: r)) as [w2 [E2 Hw2]].
  cbn [lstrip_by] in E2. rewrite Hc in E2.
  rewrite E, E2, !forallb_app.
  repeat (apply andb_true_iff; split).
  - eapply PyFacts.forallb_weaken; [|exact Hw]. now intros a ->.
  - eapply PyFacts.forallb_weaken; [|exact Hw2]. intros a ->. apply orb_true_r.
  - eapply PyFacts.forallb_weaken; [|exact H]. now intros a ->.
Qed.

(** The marker line itself is never taken for the count line. *)
Lemma marker_not_count (l : str) :
  contains "internalField" l = true -> match_count l = false.
Proof.
  intros H. destruct (match_count l) eqn:E; [|reflexivity].
  apply match_count_chars in E. apply contains_spec in H as [a [b ->]].
  rewrite !forallb_app in E. apply andb_true_iff in E as [_ E].
  apply andb_true_iff in E as [E _]. discriminate E.
Qed.

(** What the locator does once the marker line is known. *)
Lemma locate_marker (pre : list str) (l : str) (post : list str) :
  no_marker pre = true ->
  contains "internalField" l = true ->
  parse_internal_field_lines (pre ++ l :: post) =
    if is_uniform_line l then
      after <- index (split1 "uniform" l) 1 ;;
      OK ([strip (replace ";" " " after)], true)
    else
      match find_index match_count post with
      | None => Raise MissingCount
      | Some k =>
          match find_index is_open (skipn (k + 1) post) with
          | None => Raise MissingOpenDelimiter
          | Some i =>
              OK (collect_data_lines (skipn (i + 1) (skipn (k + 1) post)),
                  false)
          end
      end.
Proof.
  intros Hpre Hl. unfold parse_internal_field_lines, find_from.
  cbn [skipn]. rewrite (find_index_first _ pre l post Hpre Hl).
  cbn [option_map Nat.add]. rewrite index_middle. cbn [bind].
  destruct (is_uniform_line l); [reflexivity|].
  rewrite skipn_exact. cbn [find_index].
  rewrite (marker_not_count l Hl).
  destruct (find_index match_count post) as [k|]; [|reflexivity].
  cbn [option_map].
  replace (List.length pre + S k + 1) with (List.length pre + S (k + 1)) by lia.
  rewrite skipn_more. cbn [skipn].
  fold (is_open).
  change (fun l0 : str => str_eqb (strip l0) "(") with is_open.
  destruct (find_index is_open (skipn (k + 1) post)) as [i|]; [|reflexivity].
  cbn [option_map].
  replace (List.length pre + S (k + 1) + i + 1)
    with (List.length pre + S ((i + 1) + (k + 1))) by lia.
  rewrite skipn_more. cbn [skipn]. now rewrite skipn_skipn.
Qed.

Lemma collect_data_lines_app (body rest : list str) :
  no_terminator body = true ->
  collect_data_lines (body ++ rest) = kept_lines body ++ collect_data_lines rest.
Proof.
  unfold no_terminator, kept_lines.
  induction body as [|l body IH]; [reflexivity|]. cbn. intros H.
  apply andb_true_iff in H as [Hl H]. apply negb_true_iff in Hl.
  rewrite Hl, (IH H). now destruct (is_skipped (strip l)).
Qed.

(** A block closed by a terminator line. *)
Lemma collect_data_lines_closed (body : list str) (close : str)
      (rest : list str) :
  no_terminator body = true -> is_terminator (strip close) = true ->
  collect_data_lines (body ++ close :: rest) = kept_lines body.
Proof.
  intros Hb Hc. rewrite collect_data_lines_app by exact Hb.
  cbn. now rewrite Hc, app_nil_r.
Qed.

(** A block that runs to the end of the input. *)
Lemma collect_data_lines_open (body : list str) :
  no_terminator body = true -> collect_data_lines body = kept_lines body.
Proof.
  intros Hb. rewrite <- (app_nil_r body) at 1.
  rewrite collect_data_lines_app by exact Hb. apply app_nil_r.
Qed.

(** The non-uniform entry: marker line, count line, opening delimiter,
    and then the lines [tl] the collecting loop runs over. *)
Lemma locate_nonuniform (pre : list str) (mk : str) (mid : list str)
      (cnt : str) (gap : list str) (open : str) (tl : list str) :
  no_marker pre = true ->
  contains "internalField" mk = true ->
  is_uniform_line mk = false ->
  forallb (fun l => negb (match_count l)) mid = true ->
  match_count cnt = true ->
  forallb (fun l => negb (is_open l)) gap = true ->
  is_open open = true ->
  parse_internal_field_lines
    (pre ++ mk :: mid ++ cnt :: gap ++ open :: tl)
  = OK (collect_data_lines tl, false).
Proof.
  intros Hpre Hmk Hnu Hmid Hcnt Hgap Hopen.
  rewrite (locate_marker pre mk _ Hpre Hmk), Hnu.
  rewrite (find_index_first _ mid cnt _ Hmid Hcnt), skipn_past.
  rewrite (find_index_first _ gap open _ Hgap Hopen), skipn_past.
  reflexivity.
Qed.

(** Every line the locator returns for a non-uniform entry is already
    stripped. *)
Lemma collect_data_lines_stripped (ls : list str) :
  Forall (fun d => strip d = d) (collect_data_lines ls).
Proof.
  induction ls as [|l ls IH]; cbn; [constructor|].
  destruct (is_terminator (strip l)); [constructor|].
  destruct (is_skipped (strip l)); [exact IH|].
  constructor; [apply strip_idem | exact IH].
Qed.

Lemma located_lines_stripped (lines data : list str) :
  parse_internal_field_lines lines = OK (data, false) ->
  Forall (fun d => strip d = d) data.
Proof.
  unfold parse_internal_field_lines.
  destruct (find_from _ 0 lines) as [idx|]; [|discriminate].
  destruct (index lines idx) as [line|]; [|discriminate]. cbn [bind].
  destruct (is_uniform_line line).
  - destruct (index _ 1); discriminate.
  - destruct (find_from match_count idx lines); [|discriminate].
    destruct (find_from _ _ lines); [|discriminate].
    intros [= <-]. apply collect_data_lines_stripped.
Qed.

(** The uniform entry: the marker line reads [a ++ "uniform" ++ after]
    and its first ["uniform"] is the one shown. *)
Lemma locate_uniform (pre : list str) (a after : str) (post : list str) :
  no_marker pre = true ->
  contains "internalField" (a ++ "uniform" ++ after) = true ->
  contains "nonuniform" (a ++ "uniform" ++ after) = false ->
  contains "uniform" a = false ->
  parse_internal_field_lines (pre ++ (a ++ "uniform" ++ after) :: post)
  = OK ([strip (replace ";" " " after)], true).
Proof.
  intros Hpre Hmk Hnon Ha.
  rewrite (locate_marker pre _ post Hpre Hmk).
  unfold is_uniform_line. rewrite Hnon.
  assert (contains "uniform" (a ++ "uniform" ++ after) = true) as ->
    by (apply contains_spec; now exists a, after).
  cbn [andb negb]. unfold split1.
  now rewrite (partition_uniform a after Ha).
Qed.

End LocatorFacts.

(** * Facts about the uniform value text *)

Section ValueText.
Import Py PyFacts.

Lemma paren_not_space (c : ascii) : is_paren c = true -> is_space c = false.
Proof.
  unfold is_paren, char_in. cbn. rewrite orb_false_r, orb_true_iff.
  rewrite !Ascii.eqb_eq. now intros [-> | ->].
Qed.

Lemma paren_not_semicolon (c : ascii) :
  is_paren c = true -> Ascii.eqb c ";" = false.
Proof.
  unfold is_paren, char_in. cbn. rewrite orb_false_r, orb_true_iff.
  rewrite !Ascii.eqb_eq. now intros [-> | ->].
Qed.

Lemma space_not_paren (c : ascii) : is_space c = true -> is_paren c = false.
Proof.
  intros H. destruct (is_paren c) eqn:E; [|reflexivity].
  apply paren_not_space in E. congruence.
Qed.

Lemma parens_no_space (x : str) :
  forallb is_paren x = true ->
  forallb (fun c => negb (is_space c)) x = true.
Proof.
  apply forallb_weaken. intros c H. now rewrite (paren_not_space c H).
Qed.

Lemma parens_no_semicolon (x : str) :
  forallb is_paren x = true ->
  forallb (fun c => negb (Ascii.eqb c ";")) x = true.
Proof.
  apply forallb_weaken. intros c H. now rewrite (paren_not_semicolon c H).
Qed.

Lemma spaces_no_paren (x : str) :
  forallb is_space x = true ->
  forallb (fun c => negb (is_paren c)) x = true.
Proof.
  apply forallb_weaken. intros c H. now rewrite (space_not_paren c H).
Qed.

Lemma spaces_blank (x : str) :
  forallb is_space x = true -> forallb blank x = true.
Proof. apply forallb_weaken. unfold blank. now intros c ->. Qed.

(** The characters of a plain token, one property at a time. *)
Lemma plain_token_chars (t : str) :
  plain_token t = true ->
  is_token t = true
  /\ forallb (fun c => negb (is_paren c)) t = true
  /\ forallb (fun c => negb (Ascii.eqb c ";")) t = true.
Proof.
  unfold plain_token, is_token. intros H.
  apply andb_true_iff in H as [Hne H]. rewrite Hne. cbn [andb].
  repeat split; revert H; apply forallb_weaken; intros c Hc;
    apply negb_true_iff in Hc; apply orb_false_iff in Hc as [Hs Hc];
    unfold is_paren, char_in in *; cbn in Hc |- *;
    rewrite ?orb_false_r in *;
    repeat (apply orb_false_iff in Hc as [? Hc]).
  - now rewrite Hs.
  - now rewrite H, H0.
  - now rewrite Hc.
Qed.

(** The text of a uniform entry that holds no value: blanks and
    parentheses around nothing. *)
Lemma split_of_empty_value (b1 lp b2 rp b3 : str) :
  forallb blank b1 = true -> forallb is_paren lp = true ->
  forallb blank b2 = true -> forallb is_paren rp = true ->
  forallb blank b3 = true ->
  split (strip_chars "()"
           (strip (strip (replace ";" " " (b1 ++ lp ++ b2 ++ rp ++ b3)))))
  = [].
Proof.
  intros H1 Hl H2 Hr H3. rewrite strip_idem, !replace_app.
  rewrite (replace_none lp), (replace_none rp)
    by now apply parens_no_semicolon.
  apply replace_blank in H1, H2, H3.
  set (B1 := replace ";" " " b1) in *. set (B2 := replace ";" " " b2) in *.
  set (B3 := replace ";" " " b3) in *.
  replace (B1 ++ lp ++ B2 ++ rp ++ B3) with (B1 ++ (lp ++ B2 ++ rp) ++ B3)
    by now rewrite <- !app_assoc.
  unfold strip. rewrite strip_by_pad by assumption.
  unfold strip_chars. change (char_in "()") with is_paren.
  destruct lp as [|c lp].
  - cbn [app]. rewrite <- (app_nil_r rp) at 1.
    rewrite strip_by_pad, (strip_by_none _ rp) by auto using parens_no_space.
    unfold strip_by. now rewrite lstrip_by_all.
  - destruct rp as [|d rp _] using rev_ind.
    + rewrite <- (app_nil_l (_ ++ _)), app_nil_r.
      rewrite strip_by_pad, (strip_by_none _ (c :: lp))
        by auto using parens_no_space.
      unfold strip_by. now rewrite lstrip_by_all.
    + rewrite forallb_app in Hr. apply andb_true_iff in Hr as [Hr Hd].
      cbn [forallb] in Hd, Hl. rewrite andb_true_r in Hd.
      apply andb_true_iff in Hl as [Hc Hl].
      replace ((c :: lp) ++ B2 ++ rp ++ [d])
        with (c :: (lp ++ B2 ++ rp) ++ [d])
        by (cbn; now rewrite <- !app_assoc).
      rewrite strip_by_core by now apply paren_not_space.
      replace (c :: (lp ++ B2 ++ rp) ++ [d])
        with ((c :: lp) ++ B2 ++ rp ++ [d])
        by (cbn; now rewrite <- !app_assoc).
      rewrite strip_by_pad.
      * rewrite strip_by_none by now apply spaces_no_paren.
        now apply split_all_blanks.
      * change (char_in "()") with is_paren. cbn [forallb].
        now rewrite Hc, Hl.
      * change (char_in "()") with is_paren. rewrite forallb_app.
        cbn [forallb]. now rewrite Hr, Hd.
Qed.

(** Stripping keeps a leading part that starts and ends with characters
    that are not stripped. *)
Lemma strip_by_keep (p : ascii -> bool) (x y : str) :
  x <> [] -> forallb (fun c => negb (p c)) x = true ->
  strip_by p (x ++ y) = x ++ rstrip_by p y.
Proof.
  intros Hne Hx. unfold strip_by.
  destruct x as [|c x]; [congruence|].
  pose proof Hx as Hx'. cbn in Hx'. apply andb_true_iff in Hx' as [Hc _].
  apply negb_true_iff in Hc. cbn [app lstrip_by]. rewrite Hc.
  change (c :: x ++ y) with ((c :: x) ++ y).
  rewrite rstrip_by_app, (rstrip_by_none _ _ Hx).
  destruct (rstrip_by p y); [now rewrite app_nil_r | reflexivity].
Qed.

Lemma rstrip_by_cons_cases (p : ascii -> bool) (c : ascii) (s : str) :
  rstrip_by p (c :: s) = [] \/ exists r, rstrip_by p (c :: s) = c :: r.
Proof.
  cbn [rstrip_by]. destruct (rstrip_by p s); [|eauto].
  destruct (p c); eauto.
Qed.

(** The first token of the text of a uniform entry. *)
Lemma first_token_of_value (ws lp tok rest : str) :
  forallb is_space ws = true -> forallb is_paren lp = true ->
  plain_token tok = true -> after_value rest ->
  index (split (strip_chars "()"
                  (strip (strip (replace ";" " "
                                   (ws ++ lp ++ tok ++ rest)))))) 0
  = OK tok.
Proof.
  intros Hws Hlp Htok Hrest.
  destruct (plain_token_chars tok Htok) as [Ht [Htp Hts]].
  assert (tok <> []) as Hne by (intros ->; discriminate).
  rewrite strip_idem, !replace_app.
  rewrite (replace_none lp) by now apply parens_no_semicolon.
  rewrite (replace_none tok) by exact Hts.
  apply spaces_blank, replace_blank in Hws.
  set (W := replace ";" " " ws) in *. set (R := replace ";" " " rest).
  rewrite <- (app_nil_r (W ++ _)), <- app_assoc.
  unfold strip. rewrite strip_by_pad by auto.
  rewrite app_assoc, strip_by_keep; cycle 1.
  { destruct lp; [exact (fun E => Hne E) | discriminate]. }
  { rewrite forallb_app, (parens_no_space lp Hlp). cbn [andb].
    unfold is_token in Ht. now apply andb_true_iff in Ht as [_ Ht]. }
  unfold strip_chars. change (char_in "()") with is_paren. unfold strip_by at 1.
  rewrite <- app_assoc, lstrip_by_app by exact Hlp.
  assert (forall y, lstrip_by is_paren (tok ++ y) = tok ++ y) as ->.
  { intros y. destruct tok as [|c tok]; [congruence|].
    cbn [forallb] in Htp. apply andb_true_iff in Htp as [Hc _].
    apply negb_true_iff in Hc. cbn [app lstrip_by]. now rewrite Hc. }
  rewrite rstrip_by_app, (rstrip_by_none _ tok Htp).
  set (Z := rstrip_by is_paren (rstrip_by is_space R)).
  assert (Z = [] \/ exists c r, Z = c :: r /\ is_space c = true) as HZ.
  { subst Z R.
    destruct Hrest as [rp tail Hrp Htail | semis sp more' Hsemis Hsp].
    2: assert (exists sep more, semis ++ sp :: more' = sep :: more
                                /\ blank sep = true) as [sep [more [-> Hsep]]].
    2: { unfold blank. destruct semis as [|c semis]; cbn [app].
         - exists sp, more'. now rewrite Hsp.
         - cbn [forallb] in Hsemis. apply andb_true_iff in Hsemis as [Hc _].
           exists c, (semis ++ sp :: more').
           split; [reflexivity | rewrite Hc; apply orb_true_r]. }
    - left. rewrite replace_app, (replace_none rp)
        by now apply parens_no_semicolon.
      rewrite rstrip_by_app, (rstrip_by_all _ _ (replace_blank _ Htail)).
      rewrite (rstrip_by_none _ rp) by now apply parens_no_space.
      now apply rstrip_by_all.
    - unfold replace. cbn [map].
      set (sep' := if Ascii.eqb sep ";" then " "%char else sep).
      assert (is_space sep' = true) as Hs.
      { subst sep'. unfold blank in Hsep.
        destruct (Ascii.eqb sep ";"); [reflexivity|].
        now rewrite orb_false_r in Hsep. }
      destruct (rstrip_by_cons_cases is_space sep'
                  (map (fun c => if Ascii.eqb c ";" then " "%char else c) more))
        as [-> | [r ->]]; [now left|].
      destruct (rstrip_by_cons_cases is_paren sep' r) as [-> | [r' ->]];
        [now left | right; eauto]. }
  destruct HZ as [-> | [c [r [-> Hc]]]].
  - now rewrite split_token.
  - now rewrite split_token_then.
Qed.

End ValueText.

(** * Facts about the non-uniform loops *)

Lemma map_result_length {A B : Type} (f : A -> result B) (l : list A)
      (ys : list B) :
  map_result f l = OK ys -> List.length ys = List.length l.
Proof.
  revert ys. induction l as [|x l IH]; intros ys; cbn.
  - now intros [= <-].
  - destruct (f x); [|discriminate]. cbn.
    destruct (map_result f l) as [ys'|]; [|discriminate]. cbn.
    intros [= <-]. cbn. now rewrite (IH ys' eq_refl).
Qed.

Lemma map_result_total {A B : Type} (f : A -> result B) (l : list A) :
  Forall (fun x => exists y, f x = OK y) l ->
  exists ys, map_result f l = OK ys.
Proof.
  induction 1 as [|x l [y Hy] _ [ys IH]]; cbn; [eauto|].
  rewrite Hy, IH. cbn. eauto.
Qed.

Section NonUniformFacts.
Import Py PyFacts.
Context {F : Type} (float : str -> option F).

Lemma scalar_loop_map_result (data : list str) :
  scalar_loop float data =
    map_result (to_float float)
               (filter (fun t => negb (is_empty t)) (map scalar_text data)).
Proof.
  induction data as [|ln data IH]; [reflexivity|].
  cbn [scalar_loop map filter]. fold (scalar_text ln).
  destruct (is_empty (scalar_text ln)); cbn [negb]; [exact IH|].
  cbn [map_result]. now rewrite IH.
Qed.

(** ** The text of a vector data line *)

Lemma semicolon_char (c : ascii) : char_in ";" c = Ascii.eqb c ";".
Proof. unfold char_in. cbn. apply orb_false_r. Qed.

Lemma semicolons_all (semis : str) :
  forallb (fun c => Ascii.eqb c ";") semis = true ->
  forallb (char_in ";") semis = true.
Proof.
  apply forallb_weaken. intros c Hc. now rewrite semicolon_char.
Qed.

(** Nothing is stripped from a text that does not end with [;]. *)
Lemma rstrip_semicolons_stays (s : str) :
  Ascii.eqb (last s " "%char) ";" = false -> rstrip_chars ";" s = s.
Proof.
  unfold rstrip_chars. induction s as [|c s IH]; [reflexivity|].
  destruct s as [|e s].
  - cbn. rewrite orb_false_r. now intros ->.
  - intros H.
    change (last (c :: e :: s) " "%char) with (last (e :: s) " "%char) in H.
    specialize (IH H). remember (e :: s) as t eqn:Et.
    cbn [rstrip_by]. rewrite IH. now subst t.
Qed.

(** A text that starts with [(] and ends with [)] is parenthesized,
    unless it is the one character. *)
Lemma parenthesized_shape (s : str) :
  is_parenthesized s = true <-> exists inner, s = "(" ++ inner ++ ")".
Proof.
  split.
  - destruct s as [|c [|e r]]; try discriminate. cbn [is_parenthesized].
    intros H. apply andb_true_iff in H as [Hc Hl].
    apply Ascii.eqb_eq in Hc, Hl. subst c.
    exists (removelast (e :: r)). cbn [list_ascii_of_string app].
    f_equal. rewrite <- Hl. now apply app_removelast_last.
  - intros [inner ->]. cbn [list_ascii_of_string app].
    destruct inner as [|e inner]; [reflexivity|].
    cbn [app is_parenthesized]. rewrite Ascii.eqb_refl. cbn [andb].
    change (e :: inner ++ [")"%char]) with ((e :: inner) ++ [")"%char]).
    rewrite last_last. apply Ascii.eqb_refl.
Qed.

(** The test of the loop, [startswith("(") and endswith(")")]. *)
Lemma parenthesized_test (s : str) :
  startswith "(" s && endswith ")" s = is_parenthesized s.
Proof.
  destruct (is_parenthesized s) eqn:E.
  - apply parenthesized_shape in E as [inner ->].
    unfold endswith. rewrite app_assoc, rev_app_distr.
    cbn [list_ascii_of_string app rev startswith].
    now rewrite !Ascii.eqb_refl.
  - apply not_true_is_false. intros H. apply andb_true_iff in H as [Hs He].
    apply startswith_spec in Hs as [r ->].
    unfold endswith in He. apply startswith_spec in He as [r' Hr'].
    apply (f_equal (@rev ascii)) in Hr'.
    rewrite rev_involutive, rev_app_distr in Hr'.
    cbn [list_ascii_of_string rev app] in Hr'.
    assert (is_parenthesized ("(" ++ r) = true) as Hp.
    { apply parenthesized_shape.
      destruct (rev r') as [|c m]; [discriminate|].
      cbn [list_ascii_of_string app] in Hr'. injection Hr' as <- ->.
      now exists m. }
    congruence.
Qed.

(** What the loop splits is the text the specification names. *)
Lemma vector_line_text_read (d text : str) :
  strip d = d -> vector_line_text d text ->
  (let ln := rstrip_chars ";" (strip d) in
   if startswith "(" ln && endswith ")" ln then slice_1_m1 ln else ln) = text.
Proof.
  intros -> [inner semis Hsemis | body semis Hsemis Hlast Hpar]; cbv zeta.
  - assert (rstrip_chars ";" ("(" ++ inner ++ ")" ++ semis)
            = "(" ++ inner ++ ")") as ->.
    { unfold rstrip_chars.
      replace ("(" ++ inner ++ ")" ++ semis)
        with ((("(" ++ inner) ++ [")"%char]) ++ semis)
        by now rewrite <- !app_assoc.
      rewrite rstrip_by_app, (rstrip_by_all _ _ (semicolons_all _ Hsemis)).
      rewrite rstrip_by_snoc by reflexivity. now rewrite <- app_assoc. }
    rewrite parenthesized_test.
    rewrite (proj2 (parenthesized_shape _)) by now exists inner.
    unfold slice_1_m1. cbn [list_ascii_of_string app tl].
    apply removelast_last.
  - assert (rstrip_chars ";" (body ++ semis) = body) as ->.
    { unfold rstrip_chars.
      rewrite rstrip_by_app, (rstrip_by_all _ _ (semicolons_all _ Hsemis)).
      now apply rstrip_semicolons_stays. }
    now rewrite parenthesized_test, Hpar.
Qed.

(** Every line has such a text. *)
Lemma vector_line_text_total (d : str) : exists text, vector_line_text d text.
Proof.
  destruct (rstrip_by_decomp (char_in ";") d) as [semis [E Hsemis]].
  set (body := rstrip_by (char_in ";") d) in *.
  assert (forallb (fun c => Ascii.eqb c ";") semis = true) as Hs.
  { revert Hsemis. apply forallb_weaken. intros c Hc.
    now rewrite <- semicolon_char. }
  assert (Ascii.eqb (last body " "%char) ";" = false) as Hlast.
  { destruct (rev body) as [|c x] eqn:Er.
    - apply (f_equal (@rev ascii)) in Er. rewrite rev_involutive in Er.
      now rewrite Er.
    - apply (f_equal (@rev ascii)) in Er. rewrite rev_involutive in Er.
      cbn [rev] in Er. rewrite Er, last_last, <- semicolon_char.
      exact (rstrip_by_last _ d (rev x) c Er). }
  destruct (is_parenthesized body) eqn:Ep.
  - apply parenthesized_shape in Ep as [inner Ei]. exists inner.
    rewrite E, Ei, <- !app_assoc. now constructor.
  - exists body. rewrite E. now constructor.
Qed.

Lemma vector_loop_texts (data texts : list str) :
  Forall (fun d => strip d = d) data ->
  Forall2 vector_line_text data texts ->
  vector_loop float data = map_result (triple_of_text float) texts.
Proof.
  intros Hs H. induction H as [|d text data texts Hd _ IH]; [reflexivity|].
  inversion Hs as [|? ? Hsd Hsdata]; subst.
  cbn [vector_loop map_result]. unfold triple_of_text at 1.
  pose proof (vector_line_text_read d text Hsd Hd) as E. cbv zeta in E.
  rewrite E, (IH Hsdata).
  destruct (split text) as [|a [|b [|c [|e parts]]]]; reflexivity.
Qed.

Lemma vector_texts_total (data : list str) :
  exists texts, Forall2 vector_line_text data texts.
Proof.
  induction data as [|d data [texts IH]]; [now exists []|].
  destruct (vector_line_text_total d) as [text Hd].
  exists (text :: texts). now constructor.
Qed.

(** After the count line the locator looks for the opening delimiter
    only. *)
Lemma locate_after_count (pre : list str) (mk : str) (mid : list str)
      (cnt : str) (rest : list str) :
  no_marker pre = true ->
  contains "internalField" mk = true ->
  is_uniform_line mk = false ->
  forallb (fun l => negb (match_count l)) mid = true ->
  match_count cnt = true ->
  parse_internal_field_lines (pre ++ mk :: mid ++ cnt :: rest) =
    match find_index is_open rest with
    | None => Raise MissingOpenDelimiter
    | Some i => OK (collect_data_lines (skipn (i + 1) rest), false)
    end.
Proof.
  intros Hpre Hmk Hnu Hmid Hcnt.
  rewrite (locate_marker pre mk _ Hpre Hmk), Hnu.
  now rewrite (find_index_first _ mid cnt _ Hmid Hcnt), skipn_past.
Qed.

(** Three plain tokens separated by single spaces split into
    themselves. *)
Lemma split_three (x y z : str) :
  plain_token x = true -> plain_token y = true -> plain_token z = true ->
  split (x ++ " " ++ y ++ " " ++ z) = [x; y; z].
Proof.
  intros Hx Hy Hz.
  apply plain_token_chars in Hx as [Hx _], Hy as [Hy _], Hz as [Hz _].
  cbn [list_ascii_of_string app].
  rewrite split_token_then by auto. rewrite split_token_then by auto.
  now rewrite split_token.
Qed.

Lemma rstrip_by_solid_suffix (p : ascii -> bool) (a z : str) :
  z <> [] -> forallb (fun c => negb (p c)) z = true ->
  rstrip_by p (a ++ z) = a ++ z.
Proof.
  intros Hne Hz. rewrite rstrip_by_app, (rstrip_by_none _ z Hz).
  destruct z; [congruence | reflexivity].
Qed.

Lemma plain_token_no_semicolon (z : str) :
  plain_token z = true ->
  forallb (fun c => negb (char_in ";" c)) z = true.
Proof.
  intros H. apply plain_token_chars in H as [_ [_ H]]. revert H.
  apply forallb_weaken. intros c Hc. unfold char_in. cbn.
  now rewrite orb_false_r.
Qed.

Lemma plain_token_no_space (z : str) :
  plain_token z = true -> forallb (fun c => negb (is_space c)) z = true.
Proof.
  intros H. apply plain_token_chars in H as [H _].
  unfold is_token in H. now apply andb_true_iff in H as [_ H].
Qed.

Lemma plain_token_nonempty (z : str) : plain_token z = true -> z <> [].
Proof. now intros H ->. Qed.

(** The vector loop on one line of either form. *)
Lemma vector_loop_parenthesized (x y z : str) :
  plain_token x = true -> plain_token y = true -> plain_token z = true ->
  vector_loop float ["(" ++ x ++ " " ++ y ++ " " ++ z ++ ")"]
  = v <- float3 float x y z ;; OK [v].
Proof.
  intros Hx Hy Hz.
  rewrite (vector_loop_texts _ [x ++ " " ++ y ++ " " ++ z]).
  - cbn [map_result]. unfold triple_of_text.
    rewrite split_three by assumption. now destruct (float3 float x y z).
  - constructor; [|constructor].
    replace ("(" ++ x ++ " " ++ y ++ " " ++ z ++ ")")
      with ("("%char :: (x ++ " " ++ y ++ " " ++ z) ++ [")"%char])
      by (cbn [list_ascii_of_string app];
          now repeat (rewrite <- app_assoc || rewrite <- app_comm_cons)).
    now apply strip_by_core.
  - constructor; [|constructor].
    replace ("(" ++ x ++ " " ++ y ++ " " ++ z ++ ")")
      with ("(" ++ (x ++ " " ++ y ++ " " ++ z) ++ ")" ++ [])
      by (rewrite app_nil_r; now rewrite <- !app_assoc).
    now constructor.
Qed.

Lemma vector_loop_bare (x y z : str) :
  plain_token x = true -> plain_token y = true -> plain_token z = true ->
  vector_loop float [x ++ " " ++ y ++ " " ++ z]
  = v <- float3 float x y z ;; OK [v].
Proof.
  intros Hx Hy Hz.
  rewrite (vector_loop_texts _ [x ++ " " ++ y ++ " " ++ z]).
  - cbn [map_result]. unfold triple_of_text.
    rewrite split_three by assumption. now destruct (float3 float x y z).
  - constructor; [|constructor]. unfold strip.
    rewrite strip_by_keep
      by auto using plain_token_nonempty, plain_token_no_space.
    replace (" " ++ y ++ " " ++ z) with ((" " ++ y ++ " ") ++ z)
      by now rewrite <- !app_assoc.
    now rewrite rstrip_by_solid_suffix
      by auto using plain_token_nonempty, plain_token_no_space.
  - constructor; [|constructor].
    rewrite <- (app_nil_r (x ++ " " ++ y ++ " " ++ z)) at 1.
    constructor; [reflexivity| |].
    + pose proof (plain_token_no_semicolon z Hz) as Hs.
      replace (x ++ " " ++ y ++ " " ++ z) with ((x ++ " " ++ y ++ " ") ++ z)
        by now rewrite <- !app_assoc.
      destruct (rev z) as [|c m] eqn:Er.
      * apply (f_equal (@rev ascii)) in Er. rewrite rev_involutive in Er.
        now subst z.
      * apply (f_equal (@rev ascii)) in Er. rewrite rev_involutive in Er.
        cbn [rev] in Er. subst z. rewrite app_assoc, last_last.
        rewrite forallb_app in Hs. apply andb_true_iff in Hs as [_ Hs].
        cbn [forallb] in Hs. rewrite andb_true_r, semicolon_char in Hs.
        now apply negb_true_iff in Hs.
    + apply not_true_is_false. intros H.
      apply parenthesized_shape in H as [inner H].
      pose proof (plain_token_chars x Hx) as [_ [Hp _]].
      destruct x as [|c x]; [discriminate|].
      cbn [list_ascii_of_string app] in H. injection H as -> _.
      discriminate.
Qed.

Lemma well_formed_scalar_texts (body : list str) :
  forallb (well_formed_scalar float) body = true ->
  let texts :=
    filter (fun t => negb (is_empty t)) (map scalar_text (kept_lines body)) in
  List.length texts = List.length body
  /\ Forall (fun t => exists v, to_float float t = OK v) texts.
Proof.
  unfold kept_lines. induction body as [|l body IH]; cbn [forallb].
  - split; [reflexivity | constructor].
  - intros H. apply andb_true_iff in H as [Hl H].
    destruct (IH H) as [IHlen IHall]. unfold well_formed_scalar in Hl.
    apply andb_true_iff in Hl as [Hl Hf].
    apply andb_true_iff in Hl as [Hk Hne].
    cbn [map filter]. rewrite Hk. cbn [map filter]. rewrite Hne.
    split; [cbn [List.length]; now rewrite IHlen|].
    constructor; [|exact IHall]. unfold to_float.
    destruct (float (scalar_text (strip l))); [eauto | discriminate].
Qed.

End NonUniformFacts.

(** * The claims of the specification *)

(** ** Locator *)

(** C1 (the code departs from the claim).  When the input ends before a
    terminator line, the claim requires a MissingCloseDelimiter failure.
    On [truncated_file] the locator instead returns the lines collected so
    far, and the scalar extraction succeeds on them. *)
Theorem truncated_block_is_accepted :
  parse_internal_field_lines truncated_file
    = OK (lines_of ["0.1"; "0.2"], false)
  /\ scalar_field_of_lines dec_float truncated_file
    = OK [Qmake 1 10; Qmake 2 10].
Proof. split; reflexivity. Qed.

(** The same in general: once the opening delimiter is found the locator
    cannot fail, whether or not a terminator follows. *)
Lemma unterminated_block_never_fails (pre : list str) (mk : str)
      (mid : list str) (cnt : str) (gap : list str) (open : str)
      (body : list str) :
  no_marker pre = true ->
  Py.contains "internalField" mk = true ->
  is_uniform_line mk = false ->
  forallb (fun l => negb (Py.match_count l)) mid = true ->
  Py.match_count cnt = true ->
  forallb (fun l => negb (is_open l)) gap = true ->
  is_open open = true ->
  no_terminator body = true ->
  parse_internal_field_lines (pre ++ mk :: mid ++ cnt :: gap ++ open :: body)
  = OK (kept_lines body, false).
Proof.
  intros. rewrite locate_nonuniform by assumption.
  now rewrite collect_data_lines_open.
Qed.

(** C3.  The first line that contains the internal-field marker is
    classified Uniform exactly when it contains ["uniform"] and does not
    contain ["nonuniform"]; a line that contains ["nonuniform"] contains
    ["uniform"] as well and is never classified Uniform. *)
Theorem uniform_classification (pre : list str) (l : str) (post : list str) :
  no_marker pre = true ->
  Py.contains "internalField" l = true ->
  ((exists data, parse_internal_field_lines (pre ++ l :: post) = OK (data, true))
   <-> (Py.contains "uniform" l = true /\ Py.contains "nonuniform" l = false))
  /\ (Py.contains "nonuniform" l = true ->
      Py.contains "uniform" l = true
      /\ forall data,
          parse_internal_field_lines (pre ++ l :: post) <> OK (data, true)).
Proof.
  intros Hpre Hl.
  assert (forall data,
             parse_internal_field_lines (pre ++ l :: post) = OK (data, true) ->
             is_uniform_line l = true) as Honly.
  { intros data. rewrite (locate_marker pre l post Hpre Hl).
    destruct (is_uniform_line l); [reflexivity|].
    destruct (find_index Py.match_count post); [|discriminate].
    destruct (find_index is_open _); discriminate. }
  split; [split|].
  - intros [data H]. apply Honly in H. unfold is_uniform_line in H.
    apply andb_true_iff in H as [H1 H2]. now apply negb_true_iff in H2.
  - intros [H1 H2]. rewrite (locate_marker pre l post Hpre Hl).
    unfold is_uniform_line. rewrite H1, H2. cbn [andb negb].
    destruct (PyFacts.partition_complete _ _ H1) as [a [b E]].
    unfold Py.split1. rewrite E. cbn. eauto.
  - intros Hnon. split.
    + exact (PyFacts.contains_tail_of_pattern "non" "uniform" l Hnon).
    + intros data H. apply Honly in H. unfold is_uniform_line in H.
      rewrite Hnon, andb_false_r in H. discriminate.
Qed.

(** The synthetic line that carries both markers. *)
Lemma uniform_classification_witness :
  ((exists data,
       parse_internal_field_lines
         (lines_of ["internalField   nonuniform uniform 4.2;"]) = OK (data, true))
   <-> (Py.contains "uniform" "internalField   nonuniform uniform 4.2;" = true
        /\ Py.contains "nonuniform" "internalField   nonuniform uniform 4.2;"
           = false))
  /\ (Py.contains "nonuniform" "internalField   nonuniform uniform 4.2;" = true ->
      Py.contains "uniform" "internalField   nonuniform uniform 4.2;" = true
      /\ forall data,
          parse_internal_field_lines
            (lines_of ["internalField   nonuniform uniform 4.2;"])
          <> OK (data, true)).
Proof.
  exact (uniform_classification
           [] "internalField   nonuniform uniform 4.2;" [] eq_refl eq_refl).
Defined.

(** C8.  In a non-uniform data block the lines that are empty after
    trimming and the lines whose trimmed text begins with [//] are left
    out; every other line is kept, trimmed of surrounding whitespace and
    otherwise unchanged, in file order.  The scalar and the vector values
    are computed from the kept lines alone. *)
Theorem data_block_lines (F : Type) (float : str -> option F)
        (pre : list str) (mk : str) (mid : list str) (cnt : str)
        (gap : list str) (open : str) (body : list str) (close : str)
        (rest : list str) :
  no_marker pre = true ->
  Py.contains "internalField" mk = true ->
  is_uniform_line mk = false ->
  forallb (fun l => negb (Py.match_count l)) mid = true ->
  Py.match_count cnt = true ->
  forallb (fun l => negb (is_open l)) gap = true ->
  is_open open = true ->
  no_terminator body = true ->
  is_terminator (Py.strip close) = true ->
  let lines := pre ++ mk :: mid ++ cnt :: gap ++ open :: body ++ close :: rest in
  let kept :=
    filter (fun s => negb (Py.is_empty s || Py.startswith "//" s))
           (map Py.strip body) in
  parse_internal_field_lines lines = OK (kept, false)
  /\ scalar_field_of_lines float lines = scalar_loop float kept
  /\ vector_field_of_lines float lines = vector_loop float kept.
Proof.
  intros Hpre Hmk Hnu Hmid Hcnt Hgap Hopen Hbody Hclose lines kept.
  assert (parse_internal_field_lines lines = OK (kept, false)) as E.
  { unfold lines. rewrite locate_nonuniform by assumption.
    now rewrite collect_data_lines_closed. }
  unfold scalar_field_of_lines, vector_field_of_lines.
  rewrite E. repeat split.
Qed.

Lemma data_block_lines_witness :
  parse_internal_field_lines commented_file
    = OK (lines_of ["0.1"; "0.2;"; "0.3"], false)
  /\ scalar_field_of_lines dec_float commented_file
    = OK [Qmake 1 10; Qmake 2 10; Qmake 3 10].
Proof.
  destruct (data_block_lines
              Q dec_float
              (lines_of ["FoamFile"; "{"; "}"; ""])
              "internalField   nonuniform List<scalar> "
              (lines_of [""]) "3" (lines_of ["// values"]) "("
              (lines_of ["0.1"; ""; "// first"; "  0.2;"; "0.3"]) ")"
              (lines_of [";"; "boundaryField"])
              eq_refl eq_refl eq_refl eq_refl eq_refl eq_refl eq_refl
              eq_refl eq_refl) as [H1 [H2 _]].
  split; [exact H1 | exact (eq_trans H2 eq_refl)].
Defined.

(** ** Extractor, uniform entries *)

(** C4, as the claim words it, fails.  On the line
    [internalField   uniform 4;2;] the first whitespace token after the
    marker is [4;2;]; without its trailing [;] it reads [4;2], which is no
    float literal, and stripping the whole text before it is split leaves
    the same token.  The source replaces every [;] by a space before it
    splits, and returns the value of [4]. *)
Lemma semicolon_inside_value_is_read :
  spec_uniform_scalar dec_float " 4;2;" = Raise (MalformedNumber "4;2")
  /\ spec_uniform_scalar_text dec_float " 4;2;"
     = Raise (MalformedNumber "4;2")
  /\ scalar_field_of_lines dec_float
       (lines_of ["internalField   uniform 4;2;"])
     = OK [Qmake 4 1].
Proof. repeat split. Qed.

(** C4, amended.  On a uniform marker line [a ++ "uniform" ++ after],
    where the [uniform] shown is the first one of the line, every [;] of
    [after] is replaced by a space, the text is trimmed and the
    parentheses at its two ends are stripped.  The extraction returns the
    one-element sequence holding the float value of the first whitespace
    token of that text, whatever follows it; it fails with
    MalformedNumber when that token is not a float literal, and with
    IndexError when there is no token.  On a line
    [... uniform <spaces> <parentheses> tok <rest>], where [tok] is free
    of whitespace, parentheses and [;], and [rest] is either closing
    parentheses followed by whitespace and [;] only, or the terminating
    [;], if any, then whitespace and extra tokens, that token is [tok]. *)
Theorem uniform_scalar_first_token (F : Type) (float : str -> option F)
        (pre : list str) (a after : str) (post : list str) :
  no_marker pre = true ->
  Py.contains "internalField" (a ++ "uniform" ++ after) = true ->
  Py.contains "nonuniform" (a ++ "uniform" ++ after) = false ->
  Py.contains "uniform" a = false ->
  let lines := pre ++ (a ++ "uniform" ++ after) :: post in
  let text := Py.strip_chars "()" (Py.strip (Py.replace ";" " " after)) in
  scalar_field_of_lines float lines
  = match Py.split text with
    | [] => Raise IndexError
    | first :: _ =>
        match float first with
        | Some v => OK [v]
        | None => Raise (MalformedNumber first)
        end
    end
  /\ (forall ws lp tok rest,
         after = ws ++ lp ++ tok ++ rest ->
         forallb Py.is_space ws = true ->
         forallb is_paren lp = true ->
         plain_token tok = true ->
         after_value rest ->
         scalar_field_of_lines float lines
         = match float tok with
           | Some v => OK [v]
           | None => Raise (MalformedNumber tok)
           end).
Proof.
  intros Hpre Hmk Hnon Ha lines text.
  assert (scalar_field_of_lines float lines
          = first <- index (Py.split text) 0 ;;
            value <- to_float float first ;; OK [value]) as E.
  { unfold scalar_field_of_lines, lines.
    rewrite (locate_uniform pre a _ post Hpre Hmk Hnon Ha).
    cbn [bind index nth_error]. now rewrite PyFacts.strip_idem. }
  split.
  - rewrite E. destruct (Py.split text) as [|first parts]; [reflexivity|].
    cbn. unfold to_float. now destruct (float first).
  - intros ws lp tok rest Eafter Hws Hlp Htok Hrest. rewrite E.
    pose proof (first_token_of_value ws lp tok rest Hws Hlp Htok Hrest) as H.
    rewrite PyFacts.strip_idem, <- Eafter in H. fold text in H. rewrite H.
    cbn [bind]. unfold to_float. now destruct (float tok).
Qed.

Lemma uniform_scalar_first_token_witness :
  scalar_field_of_lines dec_float (lines_of ["internalField   uniform 4;2;"])
    = OK [Qmake 4 1]
  /\ scalar_field_of_lines dec_float
       (lines_of ["internalField   uniform 4.2;"])
     = OK [Qmake 42 10].
Proof.
  split.
  - destruct (uniform_scalar_first_token
                Q dec_float [] "internalField   " " 4;2;" []
                eq_refl eq_refl eq_refl eq_refl) as [H _].
    exact (eq_trans H eq_refl).
  - destruct (uniform_scalar_first_token
                Q dec_float [] "internalField   " " 4.2;" []
                eq_refl eq_refl eq_refl eq_refl) as [_ H].
    exact (H " " [] "4.2" ";" eq_refl eq_refl eq_refl eq_refl
             (closes_and_ends [] ";" eq_refl eq_refl)).
Defined.

(** Extra tokens after the first one are ignored, and a first token that
    is not a float literal fails; the parentheses go from the ends of the
    whole text, not from the token. *)
Example uniform_scalar_extra_tokens :
  scalar_field_of_lines dec_float
    (lines_of ["internalField   uniform (4.2 left over);"])
    = OK [Qmake 42 10]
  /\ scalar_field_of_lines dec_float (lines_of ["internalField   uniform abc;"])
    = Raise (MalformedNumber "abc")
  /\ scalar_field_of_lines dec_float
       (lines_of ["internalField   uniform (4.2) 7;"])
    = Raise (MalformedNumber "4.2)")
  /\ scalar_field_of_lines dec_float (lines_of ["internalField   uniform ;5;"])
    = OK [Qmake 5 1].
Proof. repeat split. Qed.

(** C10.  A uniform line whose value text holds nothing but blanks, [;]
    and enclosing parentheses leaves no token to index: the scalar
    extraction raises IndexError, not a number-parse failure. *)
Theorem uniform_scalar_without_value (F : Type) (float : str -> option F)
        (pre : list str) (a b1 lp b2 rp b3 : str) (post : list str) :
  no_marker pre = true ->
  Py.contains "internalField" (a ++ "uniform" ++ b1 ++ lp ++ b2 ++ rp ++ b3) = true ->
  Py.contains "nonuniform" (a ++ "uniform" ++ b1 ++ lp ++ b2 ++ rp ++ b3) = false ->
  Py.contains "uniform" a = false ->
  forallb blank b1 = true -> forallb is_paren lp = true ->
  forallb blank b2 = true -> forallb is_paren rp = true ->
  forallb blank b3 = true ->
  scalar_field_of_lines float
    (pre ++ (a ++ "uniform" ++ b1 ++ lp ++ b2 ++ rp ++ b3) :: post)
  = Raise IndexError.
Proof.
  intros Hpre Hmk Hnon Ha H1 Hl H2 Hr H3.
  unfold scalar_field_of_lines.
  rewrite (locate_uniform pre a _ post Hpre Hmk Hnon Ha).
  cbn [bind index nth_error].
  now rewrite (split_of_empty_value b1 lp b2 rp b3 H1 Hl H2 Hr H3).
Qed.

Lemma uniform_scalar_without_value_witness :
  scalar_field_of_lines dec_float (lines_of ["internalField uniform ;"])
    = Raise IndexError.
Proof.
  exact (uniform_scalar_without_value
           Q dec_float [] "internalField " " ;" [] [] [] [] []
           eq_refl eq_refl eq_refl eq_refl eq_refl eq_refl eq_refl
           eq_refl eq_refl).
Defined.

(** C5.  For a uniform block [raw], the vector extraction strips the
    enclosing parentheses and splits on whitespace.  Anything but exactly
    three tokens fails with ArityMismatch; three tokens are read as floats
    in order, the first one that is not a float literal failing with
    MalformedNumber; three float literals give a single triple.  The line
    [internalField   uniform (1 0 0);] gives the triple of the values of
    [1], [0] and [0]. *)
Theorem uniform_vector_value (F : Type) (float : str -> option F)
        (lines : list str) (raw : str) :
  parse_internal_field_lines lines = OK ([raw], true) ->
  let vstr := Py.strip_chars "()" (Py.strip raw) in
  let parts := Py.split vstr in
  (List.length parts <> 3 ->
   vector_field_of_lines float lines = Raise (ArityMismatch vstr))
  /\ (forall a b c,
         parts = [a; b; c] ->
         vector_field_of_lines float lines =
           match float a, float b, float c with
           | Some x, Some y, Some z => OK [(x, y, z)]
           | None, _, _ => Raise (MalformedNumber a)
           | Some _, None, _ => Raise (MalformedNumber b)
           | Some _, Some _, None => Raise (MalformedNumber c)
           end)
  /\ (forall one zero,
         float "1" = Some one -> float "0" = Some zero ->
         vector_field_of_lines float
           (lines_of ["internalField   uniform (1 0 0);"])
         = OK [(one, zero, zero)]).
Proof.
  intros H vstr parts.
  assert (vector_field_of_lines float lines =
            match parts with
            | [a; b; c] => v <- float3 float a b c ;; OK [v]
            | _ => Raise (ArityMismatch vstr)
            end) as E.
  { unfold vector_field_of_lines. rewrite H. reflexivity. }
  split; [|split].
  - intros Hlen. rewrite E.
    destruct parts as [|a [|b [|c [|d parts]]]]; try reflexivity.
    now contradiction Hlen.
  - intros a b c Hp. rewrite E, Hp. unfold float3, to_float.
    destruct (float a), (float b), (float c); reflexivity.
  - intros one zero H1 H0. cbv in H1, H0 |- *. now rewrite H1, H0.
Qed.

Lemma uniform_vector_value_witness :
  vector_field_of_lines dec_float
    (lines_of ["internalField   uniform (1 0 0);"])
    = OK [(Qmake 1 1, Qmake 0 1, Qmake 0 1)].
Proof.
  destruct (uniform_vector_value
              Q dec_float (lines_of ["internalField   uniform (1 0 0);"])
              "(1 0 0)" eq_refl) as [_ [H _]].
  exact (H "1" "0" "0" eq_refl).
Defined.

(** ** Extractor, non-uniform entries *)

(** C6, as the claim words it, fails.  The data line [;5] has no trailing
    [;] and no trailing whitespace; read as the claim says it is not a
    float literal and the parse must fail with MalformedNumber.  The
    source turns the leading [;] into a space, strips it, and returns
    the value of [5]. *)
Lemma leading_semicolon_is_read :
  parse_internal_field_lines leading_semicolon_file
    = OK (lines_of [";5"], false)
  /\ spec_scalar_loop dec_float (lines_of [";5"])
    = Raise (MalformedNumber ";5")
  /\ scalar_field_of_lines dec_float leading_semicolon_file
    = OK [Qmake 5 1].
Proof. repeat split. Qed.

(** C6, amended.  For every non-uniform block parsed with scalar arity,
    each data line has every [;] replaced by a space and its surrounding
    whitespace stripped; lines that become empty are skipped; every
    remaining line is parsed as a single float, the first invalid one
    failing with MalformedNumber, and the values come in file order.  A
    block of N well-formed value lines gives N values. *)
Theorem nonuniform_scalar_values (F : Type) (float : str -> option F)
        (pre : list str) (mk : str) (mid : list str) (cnt : str)
        (gap : list str) (open : str) (body : list str) (close : str)
        (rest : list str) :
  no_marker pre = true ->
  Py.contains "internalField" mk = true ->
  is_uniform_line mk = false ->
  forallb (fun l => negb (Py.match_count l)) mid = true ->
  Py.match_count cnt = true ->
  forallb (fun l => negb (is_open l)) gap = true ->
  is_open open = true ->
  no_terminator body = true ->
  is_terminator (Py.strip close) = true ->
  let lines := pre ++ mk :: mid ++ cnt :: gap ++ open :: body ++ close :: rest in
  let texts :=
    filter (fun t => negb (Py.is_empty t))
           (map (fun ln => Py.strip (Py.replace ";" " " ln))
                (kept_lines body)) in
  scalar_field_of_lines float lines = map_result (to_float float) texts
  /\ (forallb (well_formed_scalar float) body = true ->
      exists values,
        scalar_field_of_lines float lines = OK values
        /\ List.length values = List.length body).
Proof.
  intros Hpre Hmk Hnu Hmid Hcnt Hgap Hopen Hbody Hclose lines texts.
  assert (scalar_field_of_lines float lines = map_result (to_float float) texts)
    as E.
  { unfold scalar_field_of_lines, lines.
    rewrite locate_nonuniform by assumption.
    rewrite collect_data_lines_closed by assumption.
    cbn [bind]. apply scalar_loop_map_result. }
  split; [exact E|].
  intros Hwf. destruct (well_formed_scalar_texts float body Hwf) as [Hlen Hall].
  destruct (map_result_total _ _ Hall) as [values Hv].
  exists values. fold scalar_text in texts. unfold texts in E.
  rewrite E. split; [exact Hv|].
  now rewrite (map_result_length _ _ _ Hv).
Qed.

Lemma nonuniform_scalar_values_witness :
  scalar_field_of_lines dec_float commented_file
    = OK [Qmake 1 10; Qmake 2 10; Qmake 3 10].
Proof.
  destruct (nonuniform_scalar_values
              Q dec_float
              (lines_of ["FoamFile"; "{"; "}"; ""])
              "internalField   nonuniform List<scalar> "
              (lines_of [""]) "3" (lines_of ["// values"]) "("
              (lines_of ["0.1"; ""; "// first"; "  0.2;"; "0.3"]) ")"
              (lines_of [";"; "boundaryField"])
              eq_refl eq_refl eq_refl eq_refl eq_refl eq_refl eq_refl
              eq_refl eq_refl) as [H _].
  exact (eq_trans H eq_refl).
Defined.

(** C7.  For every non-uniform block parsed with vector arity, each data
    line is read through its text: the line without its trailing [;] and,
    when what is left starts with [(] and ends with [)], without exactly
    one leading and one trailing parenthesis.  Every data line has such a
    text, and the extraction is the texts read in file order: a text must
    split into exactly three whitespace-separated tokens (ArityMismatch
    otherwise), each one a float (MalformedNumber otherwise), and the
    first failing line decides.  A parenthesized line [(x y z)] and a
    bare line [x y z] are both accepted and give the same triple. *)
Theorem nonuniform_vector_values (F : Type) (float : str -> option F)
        (lines data : list str) :
  parse_internal_field_lines lines = OK (data, false) ->
  (exists texts, Forall2 vector_line_text data texts)
  /\ (forall texts,
         Forall2 vector_line_text data texts ->
         vector_field_of_lines float lines
         = map_result (triple_of_text float) texts)
  /\ (forall x y z,
         plain_token x = true -> plain_token y = true -> plain_token z = true ->
         vector_loop float ["(" ++ x ++ " " ++ y ++ " " ++ z ++ ")"]
           = (v <- float3 float x y z ;; OK [v])
         /\ vector_loop float [x ++ " " ++ y ++ " " ++ z]
           = (v <- float3 float x y z ;; OK [v])).
Proof.
  intros H. split; [apply vector_texts_total|]. split.
  - intros texts Ht. unfold vector_field_of_lines. rewrite H. cbn [bind].
    apply vector_loop_texts; [|exact Ht].
    exact (located_lines_stripped _ _ H).
  - intros x y z Hx Hy Hz. split.
    + now apply vector_loop_parenthesized.
    + now apply vector_loop_bare.
Qed.

Lemma nonuniform_vector_values_witness :
  vector_field_of_lines dec_float vector_file_semicolons
    = OK [(Qmake 1 1, Qmake 0 1, Qmake 0 1); (Qmake 0 1, Qmake 1 1, Qmake 0 1);
          (Qmake 0 1, Qmake 0 1, Qmake 1 1)]
  /\ vector_field_of_lines dec_float vector_file_unbalanced
     = Raise (MalformedNumber "(1").
Proof.
  split.
  2: { assert (Forall2 vector_line_text (lines_of ["(1 0 0;"])
                       (lines_of ["(1 0 0"])) as Ht.
       { constructor; [exact (bare_text "(1 0 0" ";" eq_refl eq_refl eq_refl)|].
         constructor. }
       destruct (nonuniform_vector_values
                   Q dec_float vector_file_unbalanced
                   (lines_of ["(1 0 0;"]) eq_refl)
         as [_ [H _]].
       exact (eq_trans (H _ Ht) eq_refl). }
  assert (Forall2 vector_line_text
            (lines_of ["(1 0 0);"; "0 1 0;;"; "( 0 0 1 );"])
            (lines_of ["1 0 0"; "0 1 0"; " 0 0 1 "])) as Ht.
  { constructor; [exact (parenthesized_text "1 0 0" ";" eq_refl)|].
    constructor; [exact (bare_text "0 1 0" ";;" eq_refl eq_refl eq_refl)|].
    constructor; [exact (parenthesized_text " 0 0 1 " ";" eq_refl)|].
    constructor. }
  destruct (nonuniform_vector_values
              Q dec_float vector_file_semicolons
              (lines_of ["(1 0 0);"; "0 1 0;;"; "( 0 0 1 );"]) eq_refl)
    as [_ [H _]].
  exact (eq_trans (H _ Ht) eq_refl).
Defined.

(** A parenthesis without its partner stays in the token, a second pair
    of parentheses stays as well, and two components are not enough. *)
Example vector_line_failures :
  vector_loop dec_float (lines_of ["(1 0 0"]) = Raise (MalformedNumber "(1")
  /\ vector_loop dec_float (lines_of ["1 0 0);"]) = Raise (MalformedNumber "0)")
  /\ vector_loop dec_float (lines_of ["((1 0 0))"])
     = Raise (MalformedNumber "(1")
  /\ vector_loop dec_float (lines_of ["(1 0);"]) = Raise (ArityMismatch "1 0")
  /\ vector_loop dec_float (lines_of ["1 0 0 0"])
     = Raise (ArityMismatch "1 0 0 0").
Proof. repeat split. Qed.

(** ** The declared count *)

(** C2, as the claim words it, fails.  A report of the mismatch would be
    a function of what the parse returns that tells a mismatching file
    from a matching one.  [file_count_5] declares 5 entries and holds 3,
    [file_count_3] declares 3 and holds 3, and the parse returns the same
    three values for both: nothing is surfaced to the caller. *)
Lemma count_mismatch_is_not_reported :
  spec_declared_count file_count_3 = Some 3
  /\ spec_declared_count file_count_5 = Some 5
  /\ scalar_field_of_lines dec_float file_count_5
     = OK [Qmake 1 10; Qmake 2 10; Qmake 3 10]
  /\ scalar_field_of_lines dec_float file_count_3
     = scalar_field_of_lines dec_float file_count_5
  /\ ~ (exists report : result (list Q) -> bool,
          forall lines n values,
            spec_declared_count lines = Some n ->
            scalar_field_of_lines dec_float lines = OK values ->
            (report (scalar_field_of_lines dec_float lines) = true
             <-> List.length values <> n)).
Proof.
  repeat split.
  intros [report H].
  pose proof (H file_count_3 3 _ eq_refl eq_refl) as [H3 _].
  pose proof (H file_count_5 5 _ eq_refl eq_refl) as [_ H5].
  change (scalar_field_of_lines dec_float file_count_5)
    with (scalar_field_of_lines dec_float file_count_3) in H5.
  apply H3; [|reflexivity]. apply H5. cbn. lia.
Qed.

(** C2, amended.  For every non-uniform parse the declared count is only
    located, never read: whatever number the count line holds, the
    locator, the scalar extraction and the vector extraction return the
    same result, values or error, so a mismatch between the count and the
    number of parsed entries neither fails the parse nor is reported; the
    result is the value sequence alone. *)
Theorem declared_count_ignored (F : Type) (float : str -> option F)
        (pre : list str) (mk : str) (mid : list str) (cnt1 cnt2 : str)
        (rest : list str) :
  no_marker pre = true ->
  Py.contains "internalField" mk = true ->
  is_uniform_line mk = false ->
  forallb (fun l => negb (Py.match_count l)) mid = true ->
  Py.match_count cnt1 = true ->
  Py.match_count cnt2 = true ->
  parse_internal_field_lines (pre ++ mk :: mid ++ cnt1 :: rest)
    = parse_internal_field_lines (pre ++ mk :: mid ++ cnt2 :: rest)
  /\ scalar_field_of_lines float (pre ++ mk :: mid ++ cnt1 :: rest)
    = scalar_field_of_lines float (pre ++ mk :: mid ++ cnt2 :: rest)
  /\ vector_field_of_lines float (pre ++ mk :: mid ++ cnt1 :: rest)
    = vector_field_of_lines float (pre ++ mk :: mid ++ cnt2 :: rest).
Proof.
  intros Hpre Hmk Hnu Hmid H1 H2.
  assert (parse_internal_field_lines (pre ++ mk :: mid ++ cnt1 :: rest)
          = parse_internal_field_lines (pre ++ mk :: mid ++ cnt2 :: rest)) as E.
  { now rewrite !locate_after_count by assumption. }
  unfold scalar_field_of_lines, vector_field_of_lines. rewrite E.
  repeat split.
Qed.

Lemma declared_count_ignored_witness :
  scalar_field_of_lines dec_float file_count_3
    = scalar_field_of_lines dec_float file_count_5.
Proof.
  destruct (declared_count_ignored
              Q dec_float [] "internalField   nonuniform List<scalar> " []
              "3" "5" (lines_of ["("; "0.1"; "0.2"; "0.3"; ")"; ";"])
              eq_refl eq_refl eq_refl eq_refl eq_refl eq_refl) as [_ [H _]].
  exact H.
Defined.

(** * Further properties of the module *)

(** ** Outcomes of the locator *)

Section LocatorOutcomes.
Import Py PyFacts.

Lemma first_split {A : Type} (p : A -> bool) (l : list A) :
  forallb (fun y => negb (p y)) l = false ->
  exists a x b,
    l = a ++ x :: b /\ forallb (fun y => negb (p y)) a = true /\ p x = true.
Proof.
  induction l as [|y l IH]; [discriminate|]. cbn [forallb].
  destruct (p y) eqn:Ey; cbn [negb andb].
  - intros _. now exists [], y, l.
  - intros H. destruct (IH H) as [a [x [b [-> [Ha Hx]]]]].
    exists (y :: a), x, b. cbn [forallb]. now rewrite Ey, Ha.
Qed.

Lemma find_index_none_iff {A : Type} (p : A -> bool) (l : list A) :
  find_index p l = None <-> forallb (fun y => negb (p y)) l = true.
Proof.
  split; [|apply find_index_none].
  intros H. destruct (forallb _ l) eqn:E; [reflexivity|].
  destruct (first_split p l E) as [a [x [b [-> [Ha Hx]]]]].
  rewrite (find_index_first p a x b Ha Hx) in H. discriminate.
Qed.

(** A file either has no marker line, or splits at its first one. *)
Lemma marker_cases (lines : list str) :
  no_marker lines = true
  \/ exists pre l post,
      lines = pre ++ l :: post /\ no_marker pre = true
      /\ contains "internalField" l = true.
Proof.
  destruct (no_marker lines) eqn:E; [now left | right].
  exact (first_split (contains "internalField") lines E).
Qed.

Lemma locate_no_marker (lines : list str) :
  no_marker lines = true ->
  parse_internal_field_lines lines = Raise MissingEntry.
Proof.
  intros H. unfold parse_internal_field_lines, find_from. cbn [skipn].
  now rewrite (find_index_none _ _ H).
Qed.

(** A line classified uniform always yields its block. *)
Lemma locate_uniform_line (pre : list str) (l : str) (post : list str) :
  no_marker pre = true ->
  contains "internalField" l = true ->
  is_uniform_line l = true ->
  exists a b,
    l = a ++ "uniform" ++ b
    /\ parse_internal_field_lines (pre ++ l :: post)
       = OK ([strip (replace ";" " " b)], true).
Proof.
  intros Hpre Hl Hu. rewrite (locate_marker pre l post Hpre Hl), Hu.
  unfold is_uniform_line in Hu. apply andb_true_iff in Hu as [Hu _].
  destruct (partition_complete _ _ Hu) as [a [b E]].
  exists a, b. split; [exact (partition_sound _ _ _ _ E)|].
  unfold split1. now rewrite E.
Qed.

End LocatorOutcomes.

Section ExtractorOutcomes.
Import Py PyFacts.
Context {F : Type} (float : str -> option F).

(** The five outcomes of the locator. *)
Lemma locator_outcome (lines : list str) :
  (no_marker lines = true
   /\ parse_internal_field_lines lines = Raise MissingEntry)
  \/ (no_marker lines = false
      /\ ((exists raw, parse_internal_field_lines lines = OK ([raw], true))
          \/ parse_internal_field_lines lines = Raise MissingCount
          \/ parse_internal_field_lines lines = Raise MissingOpenDelimiter
          \/ (exists data,
                 parse_internal_field_lines lines = OK (data, false)))).
Proof.
  destruct (marker_cases lines) as [H | [pre [l [post [-> [Hpre Hl]]]]]].
  - left. split; [exact H | now apply locate_no_marker].
  - right. split.
    { unfold no_marker in *. rewrite forallb_app, Hpre. cbn [forallb andb].
      now rewrite Hl. }
    destruct (is_uniform_line l) eqn:Hu.
    + left. destruct (locate_uniform_line pre l post Hpre Hl Hu)
        as [a [b [_ E]]]. eauto.
    + right. rewrite (locate_marker pre l post Hpre Hl), Hu.
      destruct (find_index match_count post); [|now left].
      destruct (find_index is_open _); [|now right; left].
      right; right. eauto.
Qed.

Lemma float3_raises (a b c : str) (e : exception) :
  float3 float a b c = Raise e -> exists t, e = MalformedNumber t.
Proof.
  unfold float3, to_float.
  destruct (float a); cbn [bind]; [|intros [= <-]; eauto].
  destruct (float b); cbn [bind]; [|intros [= <-]; eauto].
  destruct (float c); cbn [bind]; [discriminate | intros [= <-]; eauto].
Qed.

Lemma scalar_loop_raises (data : list str) (e : exception) :
  scalar_loop float data = Raise e -> exists t, e = MalformedNumber t.
Proof.
  induction data as [|ln data IH]; cbn [scalar_loop]; [discriminate|].
  destruct (is_empty _); [exact IH|]. unfold to_float.
  destruct (float _); cbn [bind]; [|intros [= <-]; eauto].
  destruct (scalar_loop float data); cbn [bind]; [discriminate|].
  intros [= <-]. now apply IH.
Qed.

Lemma vector_loop_raises (data : list str) (e : exception) :
  vector_loop float data = Raise e ->
  (exists t, e = MalformedNumber t) \/ (exists s, e = ArityMismatch s).
Proof.
  induction data as [|ln data IH]; cbn [vector_loop]; [discriminate|].
  destruct (split _) as [|a [|b [|c [|d parts]]]];
    try (intros [= <-]; right; eauto).
  destruct (float3 float a b c) eqn:E3; cbn [bind].
  - destruct (vector_loop float data); cbn [bind]; [discriminate|].
    intros [= <-]. now apply IH.
  - intros [= <-]. left. exact (float3_raises _ _ _ _ E3).
Qed.

Lemma scalar_of_located (lines : list str) :
  scalar_field_of_lines float lines =
    match parse_internal_field_lines lines with
    | Raise e => Raise e
    | OK (data, true) =>
        d0 <- index data 0 ;;
        first <- index (split (strip_chars "()" (strip d0))) 0 ;;
        value <- to_float float first ;;
        OK [value]
    | OK (data, false) => scalar_loop float data
    end.
Proof.
  unfold scalar_field_of_lines.
  now destruct (parse_internal_field_lines lines) as [[data []]|].
Qed.

Lemma vector_of_located (lines : list str) :
  vector_field_of_lines float lines =
    match parse_internal_field_lines lines with
    | Raise e => Raise e
    | OK (data, true) =>
        d0 <- index data 0 ;;
        match split (strip_chars "()" (strip d0)) with
        | [a; b; c] => v <- float3 float a b c ;; OK [v]
        | _ => Raise (ArityMismatch (strip_chars "()" (strip d0)))
        end
    | OK (data, false) => vector_loop float data
    end.
Proof.
  unfold vector_field_of_lines.
  now destruct (parse_internal_field_lines lines) as [[data []]|].
Qed.

Lemma scalar_uniform_raises (raw : str) (e : exception) :
  (first <- index (split (strip_chars "()" (strip raw))) 0 ;;
   value <- to_float float first ;; OK [value]) = Raise e ->
  e = IndexError \/ exists t, e = MalformedNumber t.
Proof.
  unfold index. destruct (split _) as [|t ts]; cbn.
  - intros [= <-]. now left.
  - unfold to_float. destruct (float t); cbn; [discriminate|].
    intros [= <-]. right. eauto.
Qed.

Lemma vector_uniform_raises (raw : str) (e : exception) :
  match split (strip_chars "()" (strip raw)) with
  | [a; b; c] => v <- float3 float a b c ;; OK [v]
  | _ => Raise (ArityMismatch (strip_chars "()" (strip raw)))
  end = Raise e ->
  (exists t, e = MalformedNumber t) \/ (exists s, e = ArityMismatch s).
Proof.
  destruct (split _) as [|a [|b [|c [|d parts]]]];
    try (intros [= <-]; right; eauto).
  destruct (float3 float a b c) eqn:E3; cbn [bind]; [discriminate|].
  intros [= <-]. left. exact (float3_raises _ _ _ _ E3).
Qed.

End ExtractorOutcomes.

(** X1.  The locator fails with MissingEntry exactly when no line of the
    file contains [internalField]; the scalar and the vector extraction
    fail with it in exactly the same case. *)
Theorem missing_entry_iff (F : Type) (float : str -> option F)
        (lines : list str) :
  (parse_internal_field_lines lines = Raise MissingEntry
   <-> no_marker lines = true)
  /\ (scalar_field_of_lines float lines = Raise MissingEntry
      <-> no_marker lines = true)
  /\ (vector_field_of_lines float lines = Raise MissingEntry
      <-> no_marker lines = true).
Proof.
  rewrite scalar_of_located, vector_of_located.
  destruct (locator_outcome lines)
    as [[Hn E] | [Hn [[raw E] | [E | [E | [data E]]]]]];
    rewrite E, Hn; cbn [bind index nth_error].
  - repeat split; auto.
  - repeat split; try discriminate; intros H.
    + apply scalar_uniform_raises in H as [H | [t H]]; discriminate.
    + apply vector_uniform_raises in H as [[t H] | [t H]]; discriminate.
  - repeat split; discriminate.
  - repeat split; discriminate.
  - repeat split; try discriminate; intros H.
    + apply scalar_loop_raises in H as [t H]; discriminate.
    + apply vector_loop_raises in H as [[t H] | [t H]]; discriminate.
Qed.

(** X2.  The exceptions raised on the lines of a file, once the file is
    read.  The locator raises only MissingEntry, MissingCount or
    MissingOpenDelimiter, never IndexError: its [split("uniform", 1)[1]]
    is guarded.  The scalar extraction from the lines adds IndexError and
    MalformedNumber and never raises ArityMismatch; the vector extraction
    from the lines adds ArityMismatch and MalformedNumber and never
    raises IndexError.  What [open] and [readlines] raise comes before
    and is no part of the statement. *)
Theorem exceptions_raised (F : Type) (float : str -> option F)
        (lines : list str) (e : exception) :
  (parse_internal_field_lines lines = Raise e ->
   e = MissingEntry \/ e = MissingCount \/ e = MissingOpenDelimiter)
  /\ (scalar_field_of_lines float lines = Raise e ->
      e = MissingEntry \/ e = MissingCount \/ e = MissingOpenDelimiter
      \/ e = IndexError \/ exists t, e = MalformedNumber t)
  /\ (vector_field_of_lines float lines = Raise e ->
      e = MissingEntry \/ e = MissingCount \/ e = MissingOpenDelimiter
      \/ (exists s, e = ArityMismatch s) \/ exists t, e = MalformedNumber t).
Proof.
  rewrite scalar_of_located, vector_of_located.
  destruct (locator_outcome lines)
    as [[Hn E] | [Hn [[raw E] | [E | [E | [data E]]]]]];
    rewrite E; cbn [bind index nth_error]; repeat split;
    try discriminate; try (intros [= <-]; tauto); intros H.
  - apply scalar_uniform_raises in H. tauto.
  - apply vector_uniform_raises in H. tauto.
  - apply scalar_loop_raises in H. tauto.
  - apply vector_loop_raises in H. tauto.
Qed.

Section ErrorPropagation.
Import Py PyFacts.
Context {F : Type} (float : str -> option F).

(** A locator exception reaches the caller of either extraction
    unchanged, and neither extraction raises one of its own. *)
Lemma locator_error_propagates (lines : list str) (e : exception) :
  e = MissingEntry \/ e = MissingCount \/ e = MissingOpenDelimiter ->
  (scalar_field_of_lines float lines = Raise e
   <-> parse_internal_field_lines lines = Raise e)
  /\ (vector_field_of_lines float lines = Raise e
      <-> parse_internal_field_lines lines = Raise e).
Proof.
  intros He. rewrite scalar_of_located, vector_of_located.
  destruct (parse_internal_field_lines lines) as [[data [|]]|e'] eqn:E.
  - destruct (locator_outcome lines)
      as [[_ E'] | [_ [[raw E'] | [E' | [E' | [data' E']]]]]];
      rewrite E in E'; try discriminate.
    injection E' as ->. cbn [bind index nth_error].
    repeat split; try discriminate; intros H.
    + apply scalar_uniform_raises in H as [-> | [t ->]];
        destruct He as [? | [? | ?]]; discriminate.
    + apply vector_uniform_raises in H as [[t ->] | [t ->]];
        destruct He as [? | [? | ?]]; discriminate.
  - repeat split; try discriminate; intros H.
    + apply scalar_loop_raises in H as [t ->];
        destruct He as [? | [? | ?]]; discriminate.
    + apply vector_loop_raises in H as [[t ->] | [t ->]];
        destruct He as [? | [? | ?]]; discriminate.
  - repeat split; intros [= ->]; reflexivity.
Qed.

End ErrorPropagation.

(** X3.  For a non-uniform entry the count is looked for on every line
    after the marker line, to the end of the file: the parse fails with
    MissingCount exactly when none of these lines holds digits only.  A
    count written on the marker line itself is not seen. *)
Theorem missing_count_iff (F : Type) (float : str -> option F)
        (pre : list str) (l : str) (post : list str) :
  no_marker pre = true ->
  Py.contains "internalField" l = true ->
  is_uniform_line l = false ->
  (parse_internal_field_lines (pre ++ l :: post) = Raise MissingCount
   <-> forallb (fun x => negb (Py.match_count x)) post = true)
  /\ (scalar_field_of_lines float (pre ++ l :: post) = Raise MissingCount
      <-> forallb (fun x => negb (Py.match_count x)) post = true)
  /\ (vector_field_of_lines float (pre ++ l :: post) = Raise MissingCount
      <-> forallb (fun x => negb (Py.match_count x)) post = true).
Proof.
  intros Hpre Hl Hu.
  assert (parse_internal_field_lines (pre ++ l :: post) = Raise MissingCount
          <-> forallb (fun x => negb (Py.match_count x)) post = true) as E.
  { rewrite (locate_marker pre l post Hpre Hl), Hu.
    rewrite <- find_index_none_iff.
    destruct (find_index Py.match_count post); [|tauto].
    destruct (find_index is_open _); split; discriminate. }
  destruct (locator_error_propagates float (pre ++ l :: post) MissingCount)
    as [Hs Hv]; [tauto|].
  rewrite Hs, Hv. tauto.
Qed.

Lemma missing_count_iff_witness :
  scalar_field_of_lines dec_float
    (lines_of ["internalField   nonuniform List<scalar> 3(0.1 0.2 0.3);";
               "boundaryField"; "{"; "}"])
  = Raise MissingCount.
Proof.
  destruct (missing_count_iff
              Q dec_float []
              "internalField   nonuniform List<scalar> 3(0.1 0.2 0.3);"
              (lines_of ["boundaryField"; "{"; "}"])
              eq_refl eq_refl eq_refl) as [_ [[_ H] _]].
  exact (H eq_refl).
Defined.

(** X4.  Once the count line is found, the opening delimiter is looked
    for on every later line: the parse fails with MissingOpenDelimiter
    exactly when no later line is [(] alone.  A [(] that shares its line
    with the count or with the first value is not seen. *)
Theorem missing_open_delimiter_iff (F : Type) (float : str -> option F)
        (pre : list str) (mk : str) (mid : list str) (cnt : str)
        (rest : list str) :
  no_marker pre = true ->
  Py.contains "internalField" mk = true ->
  is_uniform_line mk = false ->
  forallb (fun l => negb (Py.match_count l)) mid = true ->
  Py.match_count cnt = true ->
  (parse_internal_field_lines (pre ++ mk :: mid ++ cnt :: rest)
     = Raise MissingOpenDelimiter
   <-> forallb (fun l => negb (is_open l)) rest = true)
  /\ (scalar_field_of_lines float (pre ++ mk :: mid ++ cnt :: rest)
        = Raise MissingOpenDelimiter
      <-> forallb (fun l => negb (is_open l)) rest = true)
  /\ (vector_field_of_lines float (pre ++ mk :: mid ++ cnt :: rest)
        = Raise MissingOpenDelimiter
      <-> forallb (fun l => negb (is_open l)) rest = true).
Proof.
  intros Hpre Hmk Hu Hmid Hcnt.
  assert (parse_internal_field_lines (pre ++ mk :: mid ++ cnt :: rest)
            = Raise MissingOpenDelimiter
          <-> forallb (fun l => negb (is_open l)) rest = true) as E.
  { rewrite (locate_after_count pre mk mid cnt rest Hpre Hmk Hu Hmid Hcnt).
    rewrite <- find_index_none_iff.
    destruct (find_index is_open rest); split; (discriminate || tauto). }
  destruct (locator_error_propagates
              float (pre ++ mk :: mid ++ cnt :: rest) MissingOpenDelimiter)
    as [Hs Hv]; [tauto|].
  rewrite Hs, Hv. tauto.
Qed.

Lemma missing_open_delimiter_iff_witness :
  vector_field_of_lines dec_float
    (lines_of ["internalField   nonuniform List<vector> "; "2";
               "((1 0 0)"; "(0 1 0))"; ";"])
  = Raise MissingOpenDelimiter.
Proof.
  destruct (missing_open_delimiter_iff
              Q dec_float []
              "internalField   nonuniform List<vector> " [] "2"
              (lines_of ["((1 0 0)"; "(0 1 0))"; ";"])
              eq_refl eq_refl eq_refl eq_refl eq_refl) as [_ [_ [_ H]]].
  exact (H eq_refl).
Defined.

(** ** What the locator returns *)

Section LocatedLines.
Import Py PyFacts.

Lemma forallb_lstrip_by (p q : ascii -> bool) (s : str) :
  forallb q s = true -> forallb q (lstrip_by p s) = true.
Proof.
  induction s as [|c s IH]; [reflexivity|]. intros H. cbn [lstrip_by].
  destruct (p c); [|exact H]. cbn [forallb] in H.
  apply andb_true_iff in H as [_ H]. now apply IH.
Qed.

Lemma forallb_rstrip_by (p q : ascii -> bool) (s : str) :
  forallb q s = true -> forallb q (rstrip_by p s) = true.
Proof.
  induction s as [|c s IH]; [reflexivity|]. cbn [forallb]. intros H.
  apply andb_true_iff in H as [Hc H]. specialize (IH H).
  cbn [rstrip_by]. destruct (rstrip_by p s) as [|d r].
  - destruct (p c); [reflexivity|]. cbn [forallb]. now rewrite Hc.
  - cbn [forallb] in *. now rewrite Hc, IH.
Qed.

Lemma forallb_strip_by (p q : ascii -> bool) (s : str) :
  forallb q s = true -> forallb q (strip_by p s) = true.
Proof.
  intros H. unfold strip_by. now apply forallb_rstrip_by, forallb_lstrip_by.
Qed.

Lemma replace_no_semicolon (s : str) :
  forallb (fun c => negb (Ascii.eqb c ";")) (replace ";" " " s) = true.
Proof.
  unfold replace. induction s as [|c s IH]; [reflexivity|].
  cbn [map forallb]. rewrite IH, andb_true_r.
  now destruct (Ascii.eqb c ";") eqn:E; [|rewrite E].
Qed.

(** Each collected line is trimmed, and is neither empty, nor a comment,
    nor a terminator. *)
Lemma collect_data_lines_kept (ls : list str) :
  Forall (fun d => strip d = d /\ is_skipped d = false
                   /\ is_terminator d = false)
         (collect_data_lines ls).
Proof.
  induction ls as [|l ls IH]; cbn [collect_data_lines]; [constructor|].
  destruct (is_terminator (strip l)) eqn:Et; [constructor|].
  destruct (is_skipped (strip l)) eqn:Es; [exact IH|].
  constructor; [|exact IH]. now rewrite strip_idem.
Qed.

End LocatedLines.

(** X5.  Whatever the file, a uniform result of the locator is a single
    text, trimmed of surrounding whitespace and free of [;]: every [;] of
    the marker line, not only the final one, has been turned into a
    space. *)
Theorem uniform_block_shape (lines data : list str) :
  parse_internal_field_lines lines = OK (data, true) ->
  exists raw,
    data = [raw] /\ Py.strip raw = raw
    /\ forallb (fun c => negb (Ascii.eqb c ";")) raw = true.
Proof.
  intros H.
  destruct (marker_cases lines) as [Hn | [pre [l [post [-> [Hpre Hl]]]]]].
  { rewrite (locate_no_marker _ Hn) in H. discriminate. }
  destruct (is_uniform_line l) eqn:Hu.
  - destruct (locate_uniform_line pre l post Hpre Hl Hu) as [a [b [_ E]]].
    rewrite E in H. injection H as <-.
    exists (Py.strip (Py.replace ";" " " b)). repeat split.
    + apply PyFacts.strip_idem.
    + apply forallb_strip_by, replace_no_semicolon.
  - rewrite (locate_marker pre l post Hpre Hl), Hu in H.
    destruct (find_index Py.match_count post); [|discriminate].
    destruct (find_index is_open _); discriminate.
Qed.

Lemma uniform_block_shape_witness :
  exists raw,
    lines_of ["(1 0 0)"] = [raw] /\ Py.strip raw = raw
    /\ forallb (fun c => negb (Ascii.eqb c ";")) raw = true.
Proof.
  exact (uniform_block_shape
           (lines_of ["internalField   uniform (1 0 0);"])
           (lines_of ["(1 0 0)"]) eq_refl).
Defined.

(** X6.  Whatever the file, every data line the locator returns for a
    non-uniform entry is trimmed, non-empty, not a [//] comment and not a
    terminator [)] or [);]. *)
Theorem nonuniform_lines_kept (lines data : list str) :
  parse_internal_field_lines lines = OK (data, false) ->
  Forall (fun d =>
            Py.strip d = d /\ Py.is_empty d = false
            /\ Py.startswith "//" d = false /\ is_terminator d = false)
         data.
Proof.
  intros H.
  assert (exists ls, data = collect_data_lines ls) as [ls ->].
  { unfold parse_internal_field_lines in H.
    destruct (find_from _ 0 lines) as [idx|]; [|discriminate].
    destruct (index lines idx) as [line|]; [|discriminate]. cbn [bind] in H.
    destruct (is_uniform_line line).
    - destruct (index _ 1); discriminate.
    - destruct (find_from Py.match_count idx lines); [|discriminate].
      destruct (find_from _ _ lines); [|discriminate].
      injection H as <-. eauto. }
  eapply Forall_impl; [|apply collect_data_lines_kept].
  intros d [Hs [Hk Ht]]. unfold is_skipped in Hk.
  apply orb_false_iff in Hk as [He Hc]. auto.
Qed.

Lemma nonuniform_lines_kept_witness :
  Forall (fun d =>
            Py.strip d = d /\ Py.is_empty d = false
            /\ Py.startswith "//" d = false /\ is_terminator d = false)
         (lines_of ["0.1"; "0.2;"; "0.3"]).
Proof.
  exact (nonuniform_lines_kept
           commented_file (lines_of ["0.1"; "0.2;"; "0.3"]) eq_refl).
Defined.

(** X7.  Lines before the first line that contains [internalField] never
    matter: dropping them changes neither the locator's result nor that
    of either extraction. *)
Theorem header_is_irrelevant (F : Type) (float : str -> option F)
        (pre rest : list str) :
  no_marker pre = true ->
  parse_internal_field_lines (pre ++ rest) = parse_internal_field_lines rest
  /\ scalar_field_of_lines float (pre ++ rest)
     = scalar_field_of_lines float rest
  /\ vector_field_of_lines float (pre ++ rest)
     = vector_field_of_lines float rest.
Proof.
  intros Hpre.
  assert (parse_internal_field_lines (pre ++ rest)
          = parse_internal_field_lines rest) as E.
  { destruct (marker_cases rest) as [Hn | [pre2 [l [post [-> [Hp2 Hl]]]]]].
    - rewrite (locate_no_marker rest Hn). apply locate_no_marker.
      unfold no_marker in *. now rewrite forallb_app, Hpre, Hn.
    - rewrite app_assoc.
      rewrite (locate_marker (pre ++ pre2) l post), (locate_marker pre2 l post);
        auto.
      unfold no_marker in *. now rewrite forallb_app, Hpre, Hp2. }
  unfold scalar_field_of_lines, vector_field_of_lines. rewrite E.
  repeat split.
Qed.

Lemma header_is_irrelevant_witness :
  scalar_field_of_lines dec_float commented_file
  = scalar_field_of_lines dec_float
      (lines_of ["internalField   nonuniform List<scalar> "; ""; "3";
                 "// values"; "(";
                 "0.1"; ""; "// first"; "  0.2;"; "0.3";
                 ")"; ";"; "boundaryField"]).
Proof.
  destruct (header_is_irrelevant
              Q dec_float (lines_of ["FoamFile"; "{"; "}"; ""])
              (lines_of ["internalField   nonuniform List<scalar> "; ""; "3";
                         "// values"; "(";
                         "0.1"; ""; "// first"; "  0.2;"; "0.3";
                         ")"; ";"; "boundaryField"])
              eq_refl) as [_ [H _]].
  exact H.
Defined.

(** X8.  For a uniform entry nothing but the marker line is read: the
    lines that follow it change neither the locator's result nor that of
    either extraction. *)
Theorem uniform_reads_one_line (F : Type) (float : str -> option F)
        (pre : list str) (l : str) (post : list str) :
  no_marker pre = true ->
  Py.contains "internalField" l = true ->
  is_uniform_line l = true ->
  parse_internal_field_lines (pre ++ l :: post)
    = parse_internal_field_lines [l]
  /\ scalar_field_of_lines float (pre ++ l :: post)
     = scalar_field_of_lines float [l]
  /\ vector_field_of_lines float (pre ++ l :: post)
     = vector_field_of_lines float [l].
Proof.
  intros Hpre Hl Hu.
  assert (parse_internal_field_lines (pre ++ l :: post)
          = parse_internal_field_lines [l]) as E.
  { rewrite (locate_marker pre l post Hpre Hl).
    change [l] with ([] ++ l :: []).
    rewrite (locate_marker [] l [] eq_refl Hl). now rewrite Hu. }
  unfold scalar_field_of_lines, vector_field_of_lines. rewrite E.
  repeat split.
Qed.

Lemma uniform_reads_one_line_witness :
  vector_field_of_lines dec_float
    (lines_of ["FoamFile"; "internalField   uniform (1 0 0);";
               "boundaryField"; "internalField uniform 7;"])
  = vector_field_of_lines dec_float
      (lines_of ["internalField   uniform (1 0 0);"]).
Proof.
  destruct (uniform_reads_one_line
              Q dec_float (lines_of ["FoamFile"])
              "internalField   uniform (1 0 0);"
              (lines_of ["boundaryField"; "internalField uniform 7;"])
              eq_refl eq_refl eq_refl) as [_ [_ H]].
  exact H.
Defined.

(** X9.  For a non-uniform entry nothing is read past the terminator
    line: the lines after the first [)] or [);] of the data block change
    neither the locator's result nor that of either extraction. *)
Theorem nothing_read_after_terminator (F : Type) (float : str -> option F)
        (pre : list str) (mk : str) (mid : list str) (cnt : str)
        (gap : list str) (open : str) (body : list str) (close : str)
        (rest : list str) :
  no_marker pre = true ->
  Py.contains "internalField" mk = true ->
  is_uniform_line mk = false ->
  forallb (fun l => negb (Py.match_count l)) mid = true ->
  Py.match_count cnt = true ->
  forallb (fun l => negb (is_open l)) gap = true ->
  is_open open = true ->
  no_terminator body = true ->
  is_terminator (Py.strip close) = true ->
  let upto := pre ++ mk :: mid ++ cnt :: gap ++ open :: body ++ [close] in
  parse_internal_field_lines (upto ++ rest) = parse_internal_field_lines upto
  /\ scalar_field_of_lines float (upto ++ rest)
     = scalar_field_of_lines float upto
  /\ vector_field_of_lines float (upto ++ rest)
     = vector_field_of_lines float upto.
Proof.
  intros Hpre Hmk Hnu Hmid Hcnt Hgap Hopen Hbody Hclose upto.
  assert (parse_internal_field_lines (upto ++ rest)
          = parse_internal_field_lines upto) as E.
  { unfold upto.
    replace ((pre ++ mk :: mid ++ cnt :: gap ++ open :: body ++ [close])
               ++ rest)
      with (pre ++ mk :: mid ++ cnt :: gap ++ open :: body ++ close :: rest)
      by (now repeat (rewrite <- app_assoc || rewrite <- app_comm_cons)).
    rewrite !locate_nonuniform by assumption.
    now rewrite !collect_data_lines_closed by assumption. }
  unfold scalar_field_of_lines, vector_field_of_lines. rewrite E.
  repeat split.
Qed.

Lemma nothing_read_after_terminator_witness :
  scalar_field_of_lines dec_float commented_file
  = scalar_field_of_lines dec_float
      (lines_of ["FoamFile"; "{"; "}"; "";
                 "internalField   nonuniform List<scalar> "; ""; "3";
                 "// values"; "(";
                 "0.1"; ""; "// first"; "  0.2;"; "0.3"; ")"]).
Proof.
  destruct (nothing_read_after_terminator
              Q dec_float
              (lines_of ["FoamFile"; "{"; "}"; ""])
              "internalField   nonuniform List<scalar> "
              (lines_of [""]) "3" (lines_of ["// values"]) "("
              (lines_of ["0.1"; ""; "// first"; "  0.2;"; "0.3"]) ")"
              (lines_of [";"; "boundaryField"])
              eq_refl eq_refl eq_refl eq_refl eq_refl eq_refl eq_refl
              eq_refl eq_refl) as [_ [H _]].
  exact H.
Defined.

(** ** Sizes and failures of the extraction *)

Section LoopFacts.
Import Py PyFacts.
Context {F : Type} (float : str -> option F).

Lemma vector_loop_length (data : list str) (vs : list (F * F * F)) :
  vector_loop float data = OK vs -> List.length vs = List.length data.
Proof.
  revert vs. induction data as [|ln data IH]; intros vs; cbn [vector_loop].
  - now intros [= <-].
  - destruct (split _) as [|a [|b [|c [|d parts]]]]; try discriminate.
    destruct (float3 float a b c); cbn [bind]; [|discriminate].
    destruct (vector_loop float data) as [vs'|]; cbn [bind]; [|discriminate].
    intros [= <-]. cbn. now rewrite (IH vs' eq_refl).
Qed.

Lemma scalar_loop_length (data : list str) (vs : list F) :
  scalar_loop float data = OK vs -> List.length vs <= List.length data.
Proof.
  revert vs. induction data as [|ln data IH]; intros vs; cbn [scalar_loop].
  - now intros [= <-].
  - destruct (is_empty _).
    + intros H. apply IH in H. cbn. lia.
    + destruct (to_float float _); cbn [bind]; [|discriminate].
      destruct (scalar_loop float data) as [vs'|]; cbn [bind]; [|discriminate].
      intros [= <-]. cbn. specialize (IH vs' eq_refl). lia.
Qed.

Lemma semicolons_blank_out (ln : str) :
  forallb (fun c => Ascii.eqb c ";") ln = true ->
  strip (replace ";" " " ln) = [].
Proof.
  intros H. unfold strip, strip_by. rewrite lstrip_by_all; [reflexivity|].
  apply replace_blank. revert H. apply forallb_weaken.
  unfold blank. intros c ->. apply orb_true_r.
Qed.

Lemma semicolons_strip_to_nothing (ln : str) :
  forallb (fun c => Ascii.eqb c ";") ln = true ->
  rstrip_chars ";" (strip ln) = [].
Proof.
  intros H. unfold strip. rewrite strip_by_none.
  - unfold rstrip_chars. apply rstrip_by_all. revert H.
    apply forallb_weaken. intros c Hc. unfold char_in. cbn. now rewrite Hc.
  - revert H. apply forallb_weaken. intros c Hc.
    apply Ascii.eqb_eq in Hc. now subst c.
Qed.

End LoopFacts.

(** X10.  For a non-uniform entry a successful vector extraction returns
    exactly one triple per located data line, no line being skipped,
    while a successful scalar extraction returns at most one value per
    located data line. *)
Theorem values_per_data_line (F : Type) (float : str -> option F)
        (lines data : list str) :
  parse_internal_field_lines lines = OK (data, false) ->
  (forall vectors,
      vector_field_of_lines float lines = OK vectors ->
      List.length vectors = List.length data)
  /\ (forall values,
         scalar_field_of_lines float lines = OK values ->
         List.length values <= List.length data).
Proof.
  intros H. rewrite scalar_of_located, vector_of_located, H. split.
  - apply vector_loop_length.
  - apply scalar_loop_length.
Qed.

Lemma values_per_data_line_witness :
  (forall vectors,
      vector_field_of_lines dec_float vector_file = OK vectors ->
      List.length vectors = 2)
  /\ (forall values,
         scalar_field_of_lines dec_float vector_file = OK values ->
         List.length values <= 2).
Proof.
  exact (values_per_data_line
           Q dec_float vector_file (lines_of ["(1 0 0)"; "0 1 0"]) eq_refl).
Defined.

(** X12.  A data line made of [;] characters only is treated
    differently by the two loops: the scalar loop skips it, the vector
    loop stops on it with ArityMismatch on the empty text. *)
Theorem semicolon_only_line (F : Type) (float : str -> option F)
        (ln : str) (rest : list str) :
  forallb (fun c => Ascii.eqb c ";") ln = true ->
  scalar_loop float (ln :: rest) = scalar_loop float rest
  /\ vector_loop float (ln :: rest) = Raise (ArityMismatch []).
Proof.
  intros H. split.
  - cbn [scalar_loop]. now rewrite (semicolons_blank_out ln H).
  - cbn [vector_loop]. now rewrite (semicolons_strip_to_nothing ln H).
Qed.

Lemma semicolon_only_line_witness :
  scalar_loop dec_float (lines_of [";"; "0.5"]) = OK [Qmake 5 10]
  /\ vector_loop dec_float (lines_of [";"; "(1 0 0)"])
     = Raise (ArityMismatch []).
Proof.
  split.
  - exact (eq_trans
             (proj1 (semicolon_only_line Q dec_float ";" (lines_of ["0.5"])
                                         eq_refl))
             eq_refl).
  - exact (proj2 (semicolon_only_line Q dec_float ";" (lines_of ["(1 0 0)"])
                                      eq_refl)).
Defined.

(** X13.  The scalar loop fails on the first data line whose text is not
    a float, with that line's cleaned text, whatever the later lines
    hold; no value of the earlier lines is returned. *)
Theorem scalar_first_invalid_line (F : Type) (float : str -> option F)
        (good : list str) (bad : str) (rest : list str) :
  forallb (fun ln => Py.is_empty (scalar_text ln)
                     || match float (scalar_text ln) with
                        | Some _ => true
                        | None => false
                        end) good = true ->
  Py.is_empty (scalar_text bad) = false ->
  float (scalar_text bad) = None ->
  scalar_loop float (good ++ bad :: rest)
  = Raise (MalformedNumber (scalar_text bad)).
Proof.
  intros Hgood Hne Hbad. induction good as [|ln good IH].
  - cbn [app scalar_loop]. fold (scalar_text bad). rewrite Hne.
    unfold to_float. now rewrite Hbad.
  - cbn [forallb] in Hgood. apply andb_true_iff in Hgood as [Hln Hgood].
    cbn [app scalar_loop]. fold (scalar_text ln). rewrite (IH Hgood).
    destruct (Py.is_empty (scalar_text ln)); [reflexivity|].
    cbn [orb] in Hln. unfold to_float.
    now destruct (float (scalar_text ln)).
Qed.

Lemma scalar_first_invalid_line_witness :
  scalar_loop dec_float (lines_of ["0.1"; ";"; "abc;"; "0.3"; "xyz"])
  = Raise (MalformedNumber "abc").
Proof.
  exact (scalar_first_invalid_line
           Q dec_float (lines_of ["0.1"; ";"]) "abc;" (lines_of ["0.3"; "xyz"])
           eq_refl eq_refl eq_refl).
Defined.

(** ** The CSV writers *)

Section WriterFacts.
Import Py PyFacts.

Lemma digits_no_line_break (d : Decimal.uint) :
  no_line_break (list_ascii_of_string (NilEmpty.string_of_uint d)) = true.
Proof. induction d; cbn; auto. Qed.

Lemma str_of_nat_no_line_break (i : nat) : no_line_break (str_of_nat i) = true.
Proof. apply digits_no_line_break. Qed.

Lemma no_line_break_app (a b : str) :
  no_line_break (a ++ b) = no_line_break a && no_line_break b.
Proof. apply forallb_app. Qed.

(** A line without a line break, closed by LF, is read back as it is. *)
Lemma text_lines_line (body rest : str) :
  no_line_break body = true ->
  text_lines (body ++ LF :: rest) = (body ++ [LF]) :: text_lines rest.
Proof.
  induction body as [|c body IH]; intros H.
  - reflexivity.
  - cbn [forallb no_line_break] in H. unfold no_line_break in H.
    cbn [forallb] in H. apply andb_true_iff in H as [Hc H].
    apply negb_true_iff, orb_false_iff in Hc as [Hlf Hcr].
    cbn [app text_lines]. rewrite Hlf, Hcr, (IH H). reflexivity.
Qed.

Lemma text_lines_rows (rows : list str) :
  Forall (fun r => exists body, r = body ++ [LF] /\ no_line_break body = true)
         rows ->
  text_lines (List.concat rows) = rows.
Proof.
  induction 1 as [|r rows [body [-> Hb]] _ IH]; [reflexivity|].
  cbn [List.concat]. rewrite <- app_assoc. cbn [app].
  now rewrite text_lines_line, IH.
Qed.

Context {F : Type} (format_float : F -> str).

Lemma scalar_rows_length (i : nat) (values : list F) :
  List.length (scalar_rows format_float i values) = List.length values.
Proof.
  revert i. induction values as [|v values IH]; intros i; cbn;
    [reflexivity | now rewrite IH].
Qed.

Lemma scalar_rows_nth (i k : nat) (values : list F) (v : F) :
  nth_error values k = Some v ->
  nth_error (scalar_rows format_float i values) k
  = Some (str_of_nat (i + k) ++ "," ++ format_float v ++ [LF]).
Proof.
  revert i k. induction values as [|v0 values IH]; intros i k.
  - now destruct k.
  - destruct k as [|k]; cbn [nth_error scalar_rows].
    + intros [= ->]. now rewrite Nat.add_0_r.
    + intros H. rewrite (IH (S i) k H). now rewrite Nat.add_succ_r.
Qed.

Lemma scalar_rows_lines (i : nat) (values : list F) :
  Forall (fun v => no_line_break (format_float v) = true) values ->
  Forall (fun r => exists body, r = body ++ [LF] /\ no_line_break body = true)
         (scalar_rows format_float i values).
Proof.
  intros H. revert i. induction H as [|v values Hv _ IH]; intros i;
    cbn [scalar_rows]; constructor; [|apply IH].
  exists (str_of_nat i ++ "," ++ format_float v). split.
  - now rewrite <- !app_assoc.
  - now rewrite !no_line_break_app, str_of_nat_no_line_break, Hv.
Qed.

Lemma vector_rows_length (i : nat) (vectors : list (F * F * F)) :
  List.length (vector_rows format_float i vectors) = List.length vectors.
Proof.
  revert i. induction vectors as [|[[ux uy] uz] vectors IH]; intros i; cbn;
    [reflexivity | now rewrite IH].
Qed.

Lemma vector_rows_nth (i k : nat) (vectors : list (F * F * F))
      (ux uy uz : F) :
  nth_error vectors k = Some (ux, uy, uz) ->
  nth_error (vector_rows format_float i vectors) k
  = Some (str_of_nat (i + k) ++ "," ++ format_float ux ++ ","
            ++ format_float uy ++ "," ++ format_float uz ++ [LF]).
Proof.
  revert i k. induction vectors as [|[[x y] z] vectors IH]; intros i k.
  - now destruct k.
  - destruct k as [|k]; cbn [nth_error vector_rows].
    + intros [= -> -> ->]. now rewrite Nat.add_0_r.
    + intros H. rewrite (IH (S i) k H). now rewrite Nat.add_succ_r.
Qed.

Lemma vector_rows_lines (i : nat) (vectors : list (F * F * F)) :
  Forall (vector_no_line_break format_float) vectors ->
  Forall (fun r => exists body, r = body ++ [LF] /\ no_line_break body = true)
         (vector_rows format_float i vectors).
Proof.
  intros H. revert i.
  induction H as [|[[ux uy] uz] vectors [Hx [Hy Hz]] _ IH]; intros i;
    cbn [vector_rows]; constructor; [|apply IH].
  exists (str_of_nat i ++ "," ++ format_float ux ++ "," ++ format_float uy
            ++ "," ++ format_float uz). split.
  - now rewrite <- !app_assoc.
  - now rewrite !no_line_break_app, str_of_nat_no_line_break, Hx, Hy, Hz.
Qed.

(** What [readlines] finds after a write. *)
Lemma read_after_write (path text : str) (w : World) :
  files (snd (write_text path text w)) path = Some (text_lines text).
Proof. cbn. now rewrite str_eqb_refl. Qed.

Lemma write_text_frame (path text p : str) (w : World) :
  p <> path -> files (snd (write_text path text w)) p = files w p.
Proof.
  intros Hp. cbn. destruct (str_eqb p path) eqn:E; [|reflexivity].
  apply str_eqb_eq in E. contradiction.
Qed.

Lemma scalar_csv_lines (values : list F) (out_path : str) (w : World) :
  Forall (fun v => no_line_break (format_float v) = true) values ->
  files (snd (write_scalar_csv format_float values out_path w)) out_path
  = Some (("cellId,value" ++ [LF]) :: scalar_rows format_float 0 values).
Proof.
  intros H. unfold write_scalar_csv. rewrite read_after_write. f_equal.
  change (("cellId,value" ++ [LF]) ++ List.concat (scalar_rows format_float 0 values))
    with ("cellId,value" ++ LF :: List.concat (scalar_rows format_float 0 values)).
  rewrite text_lines_line by reflexivity.
  now rewrite text_lines_rows by now apply scalar_rows_lines.
Qed.

Lemma vector_csv_lines (vectors : list (F * F * F)) (out_path : str)
      (w : World) :
  Forall (vector_no_line_break format_float) vectors ->
  files (snd (write_vector_csv format_float vectors out_path w)) out_path
  = Some (("cellId,ux,uy,uz" ++ [LF]) :: vector_rows format_float 0 vectors).
Proof.
  intros H. unfold write_vector_csv. rewrite read_after_write. f_equal.
  change (("cellId,ux,uy,uz" ++ [LF])
            ++ List.concat (vector_rows format_float 0 vectors))
    with ("cellId,ux,uy,uz"
            ++ LF :: List.concat (vector_rows format_float 0 vectors)).
  rewrite text_lines_line by reflexivity.
  now rewrite text_lines_rows by now apply vector_rows_lines.
Qed.

End WriterFacts.

(** X14.  After [write_scalar_csv], provided no value is printed with a
    line break, reading the file back gives the header line
    [cellId,value] and then exactly one line per value, the line at
    position [k] being [k,value] with [k] counted from 0; every other
    file is left as it was. *)
Theorem scalar_csv_read_back (F : Type) (format_float : F -> str)
        (values : list F) (out_path : str) (w : World) :
  Forall (fun v => no_line_break (format_float v) = true) values ->
  let w' := snd (write_scalar_csv format_float values out_path w) in
  exists rows,
    readlines out_path w' = (OK (("cellId,value" ++ [LF]) :: rows), w')
    /\ List.length rows = List.length values
    /\ (forall k v,
           nth_error values k = Some v ->
           nth_error rows k
           = Some (str_of_nat k ++ "," ++ format_float v ++ [LF]))
    /\ (forall p, p <> out_path -> files w' p = files w p).
Proof.
  intros H w'. exists (scalar_rows format_float 0 values). repeat split.
  - unfold readlines, w'. now rewrite (scalar_csv_lines format_float).
  - apply scalar_rows_length.
  - intros k v Hk. now rewrite (scalar_rows_nth format_float 0 k values v Hk).
  - intros p Hp. now apply write_text_frame.
Qed.

Lemma scalar_csv_read_back_witness :
  exists rows,
    files (snd (write_scalar_csv
                  (fun s : str => s) (lines_of ["0.1"; "0.25"])
                  "case_csv/0.5/p.csv" {| files := fun _ => None |}))
          "case_csv/0.5/p.csv"
    = Some (("cellId,value" ++ [LF]) :: rows)
    /\ List.length rows = 2
    /\ nth_error rows 1 = Some ("1,0.25" ++ [LF]).
Proof.
  assert (Forall (fun v : str => no_line_break v = true)
                 (lines_of ["0.1"; "0.25"])) as Hv
    by (repeat constructor).
  destruct (scalar_csv_read_back
              str (fun s => s) (lines_of ["0.1"; "0.25"])
              "case_csv/0.5/p.csv" {| files := fun _ => None |} Hv)
    as [rows [H1 [H2 [H3 _]]]].
  exists rows. repeat split.
  - unfold readlines in H1.
    destruct (files _ _) as [ls|]; [|discriminate].
    now injection H1 as ->.
  - exact H2.
  - exact (H3 1 "0.25" eq_refl).
Defined.

(** X15.  After [write_vector_csv], provided no component is printed
    with a line break, reading the file back gives the header line
    [cellId,ux,uy,uz] and then exactly one line per triple, the line at
    position [k] being [k,ux,uy,uz] with [k] counted from 0; every other
    file is left as it was. *)
Theorem vector_csv_read_back (F : Type) (format_float : F -> str)
        (vectors : list (F * F * F)) (out_path : str) (w : World) :
  Forall (vector_no_line_break format_float) vectors ->
  let w' := snd (write_vector_csv format_float vectors out_path w) in
  exists rows,
    readlines out_path w' = (OK (("cellId,ux,uy,uz" ++ [LF]) :: rows), w')
    /\ List.length rows = List.length vectors
    /\ (forall k ux uy uz,
           nth_error vectors k = Some (ux, uy, uz) ->
           nth_error rows k
           = Some (str_of_nat k ++ "," ++ format_float ux ++ ","
                     ++ format_float uy ++ "," ++ format_float uz ++ [LF]))
    /\ (forall p, p <> out_path -> files w' p = files w p).
Proof.
  intros H w'. exists (vector_rows format_float 0 vectors). repeat split.
  - unfold readlines, w'. now rewrite (vector_csv_lines format_float).
  - apply vector_rows_length.
  - intros k ux uy uz Hk.
    now rewrite (vector_rows_nth format_float 0 k vectors ux uy uz Hk).
  - intros p Hp. now apply write_text_frame.
Qed.

Lemma vector_csv_read_back_witness :
  exists rows,
    files (snd (write_vector_csv
                  (fun s : str => s)
                  [(("1" : str), ("0" : str), ("0" : str))]
                  "case_csv/0.5/U.csv" {| files := fun _ => None |}))
          "case_csv/0.5/U.csv"
    = Some (("cellId,ux,uy,uz" ++ [LF]) :: rows)
    /\ List.length rows = 1.
Proof.
  assert (Forall (vector_no_line_break (fun s : str => s))
                 [(("1" : str), ("0" : str), ("0" : str))]) as Hv
    by (repeat constructor).
  destruct (vector_csv_read_back
              str (fun s => s) [(("1" : str), ("0" : str), ("0" : str))]
              "case_csv/0.5/U.csv" {| files := fun _ => None |} Hv)
    as [rows [H1 [H2 _]]].
  exists rows. split; [|exact H2].
  unfold readlines in H1.
  destruct (files _ _) as [ls|]; [|discriminate].
  now injection H1 as ->.
Defined.

(** ** Time directories *)

(** X16.  Every entry [is_time_dir] accepts is a directory whose name is
    none of [system], [constant] and [0.orig] and is accepted by
    [float]; so the sort key [float(p.name)] of [process_case] is
    computed for each accepted entry without raising. *)
Theorem time_dir_keys_total (F : Type) (float : str -> option F)
        (entries : list DirEntry) :
  (exists keys,
      time_dir_keys float entries = OK keys
      /\ List.length keys = List.length (filter (is_time_dir float) entries))
  /\ Forall (fun p =>
               entry_is_dir p = true
               /\ entry_name p <> "system" /\ entry_name p <> "constant"
               /\ entry_name p <> "0.orig"
               /\ exists v, float (entry_name p) = Some v)
            (filter (is_time_dir float) entries).
Proof.
  assert (Forall (fun p =>
                    entry_is_dir p = true
                    /\ entry_name p <> "system" /\ entry_name p <> "constant"
                    /\ entry_name p <> "0.orig"
                    /\ exists v, float (entry_name p) = Some v)
                 (filter (is_time_dir float) entries)) as Hall.
  { apply Forall_forall. intros p Hp. apply filter_In in Hp as [_ Hp].
    unfold is_time_dir in Hp.
    destruct (entry_is_dir p); cbn [negb] in Hp; [|discriminate].
    destruct (existsb _ _) eqn:Ex; [discriminate|].
    cbn [existsb lines_of map] in Ex.
    apply orb_false_iff in Ex as [E1 Ex].
    apply orb_false_iff in Ex as [E2 Ex].
    apply orb_false_iff in Ex as [E3 _].
    destruct (float (entry_name p)) as [v|] eqn:Ef; [|discriminate].
    repeat split; try (intros Hn; rewrite Hn in *; discriminate). eauto. }
  split; [|exact Hall].
  unfold time_dir_keys.
  destruct (map_result_total
              (fun p => to_float float (entry_name p))
              (filter (is_time_dir float) entries)) as [keys Hk].
  { eapply Forall_impl; [|exact Hall].
    intros p [_ [_ [_ [_ [v Hv]]]]]. unfold to_float. rewrite Hv. eauto. }
  exists keys. split; [exact Hk|]. exact (map_result_length _ _ _ Hk).
Qed.

(** ** The conversion loop *)

Section ConversionFacts.
Import Py PyFacts.
Context {F : Type} (float : str -> option F) (format_float : F -> str)
        (joinpath : str -> str -> str).

Lemma parse_scalar_field_run (path : str) (lines : list str) (w : World) :
  files w path = Some lines ->
  parse_scalar_field float path w = (scalar_field_of_lines float lines, w).
Proof.
  intros H. unfold parse_scalar_field, io_bind, readlines, lift.
  rewrite H. now destruct (scalar_field_of_lines float lines).
Qed.

Lemma parse_vector_field_run (path : str) (lines : list str) (w : World) :
  files w path = Some lines ->
  parse_vector_field float path w = (vector_field_of_lines float lines, w).
Proof.
  intros H. unfold parse_vector_field, io_bind, readlines, lift.
  rewrite H. now destruct (vector_field_of_lines float lines).
Qed.

(** One step of the loop over the fields, case by case. *)
Lemma convert_field_step (tdir out_time_dir field : str) (w : World)
      (log : list log_event) :
  convert_field float format_float joinpath tdir out_time_dir (w, log) field
  = match files w (joinpath tdir field) with
    | None => (w, log ++ [LogSkip field tdir])
    | Some lines =>
        let field_path := joinpath tdir field in
        let out_path := joinpath out_time_dir (field ++ ".csv") in
        if str_eqb field "U" then
          match vector_field_of_lines float lines with
          | OK vectors =>
              (snd (write_vector_csv format_float vectors out_path w),
               log ++ [LogVector field_path out_path])
          | Raise e =>
              (w, (log ++ [LogVector field_path out_path])
                    ++ [LogError field_path e])
          end
        else
          match scalar_field_of_lines float lines with
          | OK values =>
              (snd (write_scalar_csv format_float values out_path w),
               log ++ [LogScalar field_path out_path])
          | Raise e =>
              (w, (log ++ [LogScalar field_path out_path])
                    ++ [LogError field_path e])
          end
    end.
Proof.
  unfold convert_field.
  destruct (files w (joinpath tdir field)) as [lines|] eqn:E; [|reflexivity].
  cbv zeta. destruct (str_eqb field "U").
  - rewrite (parse_vector_field_run _ lines w E).
    now destruct (vector_field_of_lines float lines).
  - rewrite (parse_scalar_field_run _ lines w E).
    now destruct (scalar_field_of_lines float lines).
Qed.

Lemma convert_field_frame (tdir out_time_dir field p : str)
      (st : World * list log_event) :
  p <> joinpath out_time_dir (field ++ ".csv") ->
  files (fst (convert_field float format_float joinpath
                            tdir out_time_dir st field)) p
  = files (fst st) p.
Proof.
  intros Hp. destruct st as [w log]. rewrite convert_field_step.
  destruct (files w (joinpath tdir field)) as [lines|]; [|reflexivity].
  cbv zeta. destruct (str_eqb field "U").
  - destruct (vector_field_of_lines float lines); [|reflexivity].
    now apply write_text_frame.
  - destruct (scalar_field_of_lines float lines); [|reflexivity].
    now apply write_text_frame.
Qed.

Lemma convert_fields_frame (tdir out_time_dir p : str) (fields : list str)
      (st : World * list log_event) :
  (forall field, In field fields ->
                 p <> joinpath out_time_dir (field ++ ".csv")) ->
  files (fst (fold_left (convert_field float format_float joinpath
                                       tdir out_time_dir) fields st)) p
  = files (fst st) p.
Proof.
  revert st. induction fields as [|field fields IH]; intros st Hp;
    [reflexivity|].
  cbn [fold_left]. rewrite IH by (intros f Hf; apply Hp; now right).
  apply convert_field_frame. apply Hp. now left.
Qed.

Lemma cannot_convert_step (tdir out_time_dir field : str) (w : World)
      (log : list log_event) :
  cannot_convert float joinpath w tdir field ->
  fst (convert_field float format_float joinpath tdir out_time_dir
                     (w, log) field) = w.
Proof.
  unfold cannot_convert, extraction_error. rewrite convert_field_step.
  destruct (files w (joinpath tdir field)) as [lines|]; [|reflexivity].
  cbv zeta. destruct (str_eqb field "U").
  - destruct (vector_field_of_lines float lines); [congruence | reflexivity].
  - destruct (scalar_field_of_lines float lines); [congruence | reflexivity].
Qed.

End ConversionFacts.

(** X17.  Apart from the log file [out_root / "log.txt"], to which the
    messages go, the conversion loop writes nowhere but to the CSV paths
    of its (time directory, field) pairs: a path that is neither the log
    file nor one of [out_root / tdir.name / (field + ".csv")] holds after
    the run what it held before.  In particular no field file is
    modified unless it is itself one of these paths. *)
Theorem conversion_frame (F : Type) (float : str -> option F)
        (format_float : F -> str) (joinpath : str -> str -> str)
        (out_root : str) (fields : list str) (time_dirs : list DirEntry)
        (st : World * list log_event) (p : str) :
  p <> joinpath out_root "log.txt" ->
  (forall tdir field,
      In tdir time_dirs -> In field fields ->
      p <> joinpath (joinpath out_root (entry_name tdir)) (field ++ ".csv")) ->
  files (fst (convert_time_dirs float format_float joinpath
                                out_root fields time_dirs st)) p
  = files (fst st) p.
Proof.
  intros _. unfold convert_time_dirs. revert st.
  induction time_dirs as [|tdir time_dirs IH]; intros st Hp; [reflexivity|].
  cbn [fold_left]. rewrite IH by (intros t f Ht Hf; apply Hp; auto; now right).
  unfold convert_time_dir. rewrite convert_fields_frame; [reflexivity|].
  intros field Hf. apply Hp; [now left | exact Hf].
Qed.

Lemma conversion_frame_witness :
  files (fst (convert_time_dirs
                literal_float (fun s => s) slash_join "case_csv"
                (lines_of ["p"])
                [{| entry_path := "case/0.5"; entry_name := "0.5";
                    entry_is_dir := true |}]
                ({| files := fun p =>
                               if Py.str_eqb p "case/0.5/p"
                               then Some (lines_of
                                            ["internalField   uniform 4.2;"])
                               else None |}, [])))
        "case/0.5/p"
  = Some (lines_of ["internalField   uniform 4.2;"]).
Proof.
  refine (conversion_frame
            str literal_float (fun s => s) slash_join "case_csv"
            (lines_of ["p"])
            [{| entry_path := "case/0.5"; entry_name := "0.5";
                entry_is_dir := true |}]
            ({| files := fun p =>
                           if Py.str_eqb p "case/0.5/p"
                           then Some (lines_of ["internalField   uniform 4.2;"])
                           else None |}, [])
            "case/0.5/p" _ _).
  - discriminate.
  - intros tdir field [<- | []] [<- | []]. discriminate.
Defined.

(** X19.  A time directory in which every field is missing or fails to
    parse changes no file but the log file [out_root / "log.txt"]: every
    other path holds after it what it held before, and no CSV is
    created, not even an empty one. *)
Theorem nothing_converted_nothing_written (F : Type)
        (float : str -> option F) (format_float : F -> str)
        (joinpath : str -> str -> str) (out_root : str)
        (fields : list str) (tdir : DirEntry) (w : World)
        (log : list log_event) (p : str) :
  p <> joinpath out_root "log.txt" ->
  Forall (cannot_convert float joinpath w (entry_path tdir)) fields ->
  files (fst (convert_time_dir float format_float joinpath out_root fields
                               (w, log) tdir)) p
  = files w p.
Proof.
  intros _ H. f_equal. unfold convert_time_dir. cbn [fst snd].
  generalize (log ++ [LogTime (entry_name tdir)]). clear log.
  induction H as [|field fields Hf _ IH]; intros log; [reflexivity|].
  cbn [fold_left].
  pose proof (cannot_convert_step float format_float joinpath
                (entry_path tdir) (joinpath out_root (entry_name tdir))
                field w log Hf) as E.
  destruct (convert_field _ _ _ _ _ (w, log) field) as [w1 log1].
  cbn [fst] in E. subst w1. apply IH.
Qed.

Lemma nothing_converted_nothing_written_witness :
  files (fst (convert_time_dir
                literal_float (fun s => s) slash_join "case_csv"
                (lines_of ["U"; "p"])
                ({| files := fun p => if Py.str_eqb p "case/0.5/U"
                                      then Some (lines_of ["no entry here"])
                                      else None |}, [])
                {| entry_path := "case/0.5"; entry_name := "0.5";
                   entry_is_dir := true |}))
        "case_csv/0.5/U.csv"
  = None.
Proof.
  refine (nothing_converted_nothing_written
            str literal_float (fun s => s) slash_join "case_csv"
            (lines_of ["U"; "p"])
            {| entry_path := "case/0.5"; entry_name := "0.5";
               entry_is_dir := true |}
            {| files := fun p => if Py.str_eqb p "case/0.5/U"
                                 then Some (lines_of ["no entry here"])
                                 else None |}
            [] "case_csv/0.5/U.csv" _ _).
  - discriminate.
  - repeat constructor. discriminate.
Defined.





(** ** The count pattern and the vector lines *)

Section PatternFacts.
Import Py PyFacts.

Lemma digit_not_space (c : ascii) : is_digit c = true -> is_space c = false.
Proof.
  unfold is_digit, is_space. set (n := nat_of_ascii c). intros H.
  apply andb_true_iff in H as [H1 H2].
  apply Nat.leb_le in H1, H2.
  repeat (apply orb_false_iff; split);
    try (apply andb_false_iff; right; apply Nat.leb_gt; lia);
    apply Nat.eqb_neq; lia.
Qed.

Lemma digits_no_space (d : str) :
  forallb is_digit d = true -> forallb (fun c => negb (is_space c)) d = true.
Proof.
  apply forallb_weaken. intros c H. now rewrite (digit_not_space c H).
Qed.

(** Three padded tokens split into themselves, and hold neither a
    parenthesis nor a [;]. *)
Lemma padded_triple_facts (w0 x w1 y w2 z w3 : str) :
  padded_triple_ok w0 x w1 y w2 z w3 = true ->
  split (padded_triple w0 x w1 y w2 z w3) = [x; y; z]
  /\ forallb (fun c => negb (is_paren c)) (padded_triple w0 x w1 y w2 z w3)
     = true
  /\ forallb (fun c => negb (Ascii.eqb c ";")) (padded_triple w0 x w1 y w2 z w3)
     = true.
Proof.
  unfold padded_triple_ok, padded_triple. intros H.
  repeat (apply andb_true_iff in H as [H ?]).
  destruct (plain_token_chars x) as [Tx [Px Sx]]; [assumption|].
  destruct (plain_token_chars y) as [Ty [Py' Sy]]; [assumption|].
  destruct (plain_token_chars z) as [Tz [Pz Sz]]; [assumption|].
  assert (forall w, forallb is_space w = true ->
                    forallb (fun c => negb (Ascii.eqb c ";")) w = true) as Hsemi.
  { intros w. apply forallb_weaken. intros c Hc.
    destruct (Ascii.eqb c ";") eqn:E; [|reflexivity].
    apply Ascii.eqb_eq in E. subst c. discriminate. }
  repeat split.
  - rewrite split_blanks by assumption.
    destruct w1 as [|c1 w1]; [discriminate|].
    destruct w2 as [|c2 w2]; [discriminate|].
    cbn [forallb] in *.
    repeat match goal with
           | Hc : _ && _ = true |- _ => apply andb_true_iff in Hc as [? ?]
           end.
    cbn [app]. rewrite split_token_then, split_blanks by assumption.
    rewrite split_token_then, split_blanks by assumption.
    destruct w3 as [|c3 w3].
    + now rewrite app_nil_r, split_token.
    + cbn [forallb] in *.
      repeat match goal with
             | Hc : _ && _ = true |- _ => apply andb_true_iff in Hc as [? ?]
             end.
      now rewrite split_token_then, split_all_blanks.
  - rewrite !forallb_app, Px, Py', Pz.
    now rewrite !spaces_no_paren by assumption.
  - rewrite !forallb_app, Sx, Sy, Sz. now rewrite !Hsemi by assumption.
Qed.

End PatternFacts.

(** X22.  The count pattern [^\s*\d+\s*$] accepts exactly the lines made
    of whitespace, one or more digits, and whitespace: a count followed on
    its line by [(], a signed or a decimal number is never taken for the
    count line. *)
Theorem match_count_iff (s : str) :
  Py.match_count s = true
  <-> exists w1 d w2,
        s = w1 ++ d ++ w2
        /\ forallb Py.is_space w1 = true
        /\ d <> [] /\ forallb Py.is_digit d = true
        /\ forallb Py.is_space w2 = true.
Proof.
  unfold Py.match_count. split.
  - intros H.
    destruct (PyFacts.lstrip_by_decomp Py.is_space s) as [w1 [E1 H1]].
    destruct (Py.lstrip_by Py.is_space s) as [|c r]; [discriminate|].
    apply andb_true_iff in H as [Hc H].
    destruct (PyFacts.lstrip_by_decomp Py.is_digit r) as [d [E2 H2]].
    exists w1, (c :: d), (Py.lstrip_by Py.is_digit r). repeat split.
    + rewrite E1. cbn [app]. now rewrite <- E2.
    + exact H1.
    + discriminate.
    + cbn [forallb]. now rewrite Hc, H2.
    + exact H.
  - intros [w1 [d [w2 [-> [H1 [Hne [Hd H2]]]]]]].
    rewrite PyFacts.lstrip_by_app by exact H1.
    destruct d as [|c d]; [congruence|]. cbn [forallb] in Hd.
    apply andb_true_iff in Hd as [Hc Hd].
    cbn [app Py.lstrip_by]. rewrite (digit_not_space c Hc), Hc.
    cbn [andb]. rewrite PyFacts.lstrip_by_app by exact Hd.
    now apply forallb_lstrip_by.
Qed.

(** X23.  A non-uniform vector data line [(x y z)], with any whitespace
    after [(], before [)] and between the three tokens, and with any
    number of [;] after [)], gives the triple of the values of [x], [y]
    and [z]. *)
Theorem padded_vector_line (F : Type) (float : str -> option F)
        (w0 x w1 y w2 z w3 semis : str) :
  padded_triple_ok w0 x w1 y w2 z w3 = true ->
  forallb (fun c => Ascii.eqb c ";") semis = true ->
  vector_loop float ["(" ++ padded_triple w0 x w1 y w2 z w3 ++ ")" ++ semis]
  = (v <- float3 float x y z ;; OK [v]).
Proof.
  intros Hok Hsemis.
  destruct (padded_triple_facts _ _ _ _ _ _ _ Hok) as [Hsplit _].
  set (inner := padded_triple w0 x w1 y w2 z w3) in *.
  assert (Py.rstrip_chars ";" (Py.strip ("(" ++ inner ++ ")" ++ semis))
          = "(" ++ inner ++ ")") as E.
  { assert (forallb (fun c => negb (Py.is_space c)) semis = true) as Hns.
    { revert Hsemis. apply PyFacts.forallb_weaken. intros c Hc.
      apply Ascii.eqb_eq in Hc. now subst c. }
    assert (Py.strip ("(" ++ inner ++ ")" ++ semis)
            = "(" ++ inner ++ ")" ++ semis) as ->.
    { unfold Py.strip, Py.strip_by. cbn [list_ascii_of_string app Py.lstrip_by].
      change (Py.is_space "(") with false. cbv iota.
      replace ("("%char :: inner ++ ")"%char :: semis)
        with (("("%char :: inner) ++ ")"%char :: semis) by reflexivity.
      rewrite PyFacts.rstrip_by_app.
      assert (Py.rstrip_by Py.is_space (")"%char :: semis)
              = ")"%char :: semis) as ->; [|reflexivity].
      apply PyFacts.rstrip_by_none. cbn [forallb]. now rewrite Hns. }
    unfold Py.rstrip_chars.
    replace ("(" ++ inner ++ ")" ++ semis)
      with (("(" ++ inner ++ ")") ++ semis) by now rewrite <- !app_assoc.
    rewrite PyFacts.rstrip_by_app, PyFacts.rstrip_by_all.
    - replace ("(" ++ inner ++ ")") with (("(" ++ inner) ++ [")"%char])
        by now rewrite <- !app_assoc.
      now apply PyFacts.rstrip_by_snoc.
    - revert Hsemis. apply PyFacts.forallb_weaken. intros c Hc.
      unfold Py.char_in. cbn. now rewrite Hc. }
  cbn [vector_loop]. rewrite E.
  assert (Py.endswith ")" ("(" ++ inner ++ ")") = true) as ->.
  { unfold Py.endswith.
    replace ("(" ++ inner ++ ")") with (("(" ++ inner) ++ [")"%char])
      by now rewrite <- !app_assoc.
    rewrite rev_app_distr. cbn. reflexivity. }
  cbn [list_ascii_of_string app Py.startswith andb].
  rewrite Ascii.eqb_refl. cbn [andb]. unfold Py.slice_1_m1. cbn [tl].
  rewrite removelast_last, Hsplit.
  now destruct (float3 float x y z).
Qed.

Lemma padded_vector_line_witness :
  vector_loop dec_float (lines_of ["( 1.5   0 -2 );"])
  = OK [(Qmake 15 10, Qmake 0 1, Qopp (Qmake 2 1))].
Proof.
  exact (eq_trans
           (padded_vector_line Q dec_float " " "1.5" "   " "0" " " "-2" " " ";"
                               eq_refl eq_refl)
           eq_refl).
Defined.

(** X24.  A uniform vector line [... uniform (x y z);], with any
    whitespace before [(], inside the parentheses and between the three
    tokens, and only whitespace and [;] after [)], gives the single
    triple of the values of [x], [y] and [z], the first token that is
    not a float failing with MalformedNumber. *)
Theorem uniform_vector_line (F : Type) (float : str -> option F)
        (pre : list str) (a ws w0 x w1 y w2 z w3 tail : str)
        (post : list str) :
  let l := a ++ "uniform" ++ ws ++ "("
             ++ padded_triple w0 x w1 y w2 z w3 ++ ")" ++ tail in
  no_marker pre = true ->
  Py.contains "internalField" l = true ->
  Py.contains "nonuniform" l = false ->
  Py.contains "uniform" a = false ->
  forallb Py.is_space ws = true ->
  padded_triple_ok w0 x w1 y w2 z w3 = true ->
  forallb blank tail = true ->
  vector_field_of_lines float (pre ++ l :: post)
  = (v <- float3 float x y z ;; OK [v]).
Proof.
  intros l Hpre Hmk Hnon Ha Hws Hok Htail. unfold l in *.
  destruct (padded_triple_facts _ _ _ _ _ _ _ Hok) as [Hsplit [Hnp Hns]].
  set (inner := padded_triple w0 x w1 y w2 z w3) in *.
  unfold vector_field_of_lines.
  rewrite (locate_uniform pre a _ post Hpre Hmk Hnon Ha).
  cbn [bind index nth_error].
  assert (Py.strip (Py.replace ";" " " (ws ++ "(" ++ inner ++ ")" ++ tail))
          = "("%char :: inner ++ [")"%char]) as ->.
  { replace (ws ++ "(" ++ inner ++ ")" ++ tail)
      with (ws ++ ("("%char :: inner ++ [")"%char]) ++ tail)
      by (cbn [list_ascii_of_string app];
          now repeat (rewrite <- app_assoc || rewrite <- app_comm_cons)).
    rewrite !PyFacts.replace_app.
    rewrite (PyFacts.replace_none ("("%char :: inner ++ [")"%char])).
    - unfold Py.strip. rewrite PyFacts.strip_by_pad.
      + now apply PyFacts.strip_by_core.
      + now apply PyFacts.replace_blank, spaces_blank.
      + now apply PyFacts.replace_blank.
    - cbn [forallb]. rewrite forallb_app, Hns. reflexivity. }
  assert (Py.strip ("("%char :: inner ++ [")"%char])
          = "("%char :: inner ++ [")"%char]) as ->
    by now apply PyFacts.strip_by_core.
  assert (Py.strip_chars "()" ("("%char :: inner ++ [")"%char]) = inner) as ->.
  { unfold Py.strip_chars. change (Py.char_in "()") with is_paren.
    change ("("%char :: inner ++ [")"%char])
      with (["("%char] ++ inner ++ [")"%char]).
    rewrite PyFacts.strip_by_pad by reflexivity.
    now apply PyFacts.strip_by_none. }
  now rewrite Hsplit.
Qed.

Lemma uniform_vector_line_witness :
  vector_field_of_lines dec_float
    (lines_of ["internalField   uniform ( 0.5 0  -1 ) ;"])
  = OK [(Qmake 5 10, Qmake 0 1, Qopp (Qmake 1 1))].
Proof.
  exact (eq_trans
           (uniform_vector_line
              Q dec_float [] "internalField   " " " " " "0.5" " " "0" "  "
              "-1" " " " ;" []
              eq_refl eq_refl eq_refl eq_refl eq_refl eq_refl eq_refl)
           eq_refl).
Defined.
